(** * Graph chat agent: supervisor / rewriter / tool loop / responder

    A shallow embedding of [src/agents/models.py], [src/agents/graph_nodes.py]
    and [src/agents/chat_agent.py], followed by the properties of the
    orchestration graph.

    The language model, the tools and the graph runner are external
    collaborators.  They are modelled as oracles over a hidden state: every
    call either returns a value or raises, and may change the hidden state.
    Python objects mutated in place (the [ChatState] flowing through the
    graph, the conversation memory) live in one machine state that survives
    a raised exception, as it does in Python. *)

From Stdlib Require Import String List Bool ZArith QArith Lia.
Import ListNotations.
Local Open Scope string_scope.
Local Open Scope list_scope.

(** String concatenation, kept apart from list append. *)
Infix "+++" := String.append (right associativity, at level 60).

(** ** Python values used by the agent *)

(** An insertion-ordered [dict] with string keys. *)
Definition dict (V : Type) : Type := list (string * V).

Fixpoint dict_get {V} (k : string) (d : dict V) : option V :=
  match d with
  | [] => None
  | (k', v) :: d' => if String.eqb k k' then Some v else dict_get k d'
  end.

(** [k in d] *)
Definition dict_mem {V} (k : string) (d : dict V) : bool :=
  match dict_get k d with Some _ => true | None => false end.

(** [d[k] = v]: an existing key keeps its position, a new key goes last. *)
Fixpoint dict_set {V} (k : string) (v : V) (d : dict V) : dict V :=
  match d with
  | [] => [(k, v)]
  | (k', v') :: d' =>
      if String.eqb k k' then (k, v) :: d' else (k', v') :: dict_set k v d'
  end.

(** [list(d.keys())] *)
Definition dict_keys {V} (d : dict V) : list string := map fst d.

(** Truth value of a [str]. *)
Definition str_truthy (s : string) : bool :=
  match s with EmptyString => false | _ => true end.

(** [a or b] on strings. *)
Definition str_or (a b : string) : string := if str_truthy a then a else b.

(** [l[-n:]]; Python reads [l[-0:]] as the whole list. *)
Definition py_last {A} (n : nat) (l : list A) : list A :=
  match n with
  | O => l
  | _ => skipn (length l - n) l
  end.

(** [sep.join(l)] *)
Fixpoint str_join (sep : string) (l : list string) : string :=
  match l with
  | [] => ""
  | [s] => s
  | s :: l' => s +++ sep +++ str_join sep l'
  end.

(** A raised exception: its class name and [str(e)]. *)
Record Exn : Type := mkExn { exn_type : string; exn_msg : string }.

Inductive Outcome (A : Type) : Type :=
| Ok (a : A)
| Raise (e : Exn).
Arguments Ok {A} a.
Arguments Raise {A} e.

(** ** models.py *)

Inductive Intent : Type :=
| tool_required | conversation | help | unclear | error.

Definition Intent_eqb (a b : Intent) : bool :=
  match a, b with
  | tool_required, tool_required | conversation, conversation
  | help, help | unclear, unclear | error, error => true
  | _, _ => false
  end.

(** The literal string behind each intent. *)
Definition intent_str (i : Intent) : string :=
  match i with
  | tool_required => "tool_required"
  | conversation => "conversation"
  | help => "help"
  | unclear => "unclear"
  | error => "error"
  end.

Record SupervisorDecision : Type := mkDecision {
  intent : Intent;
  confidence : Q;
  needs_rewrite : bool;
  reasoning : string
}.

Record RewriterResponse : Type := mkRewrite {
  rewritten_message : string;
  clarifications_added : list string;
  rw_confidence : Q
}.

(** Values stored in a metadata mapping ([Dict[str, Any]]). *)
Inductive MetaValue : Type :=
| MStr (s : string)
| MFloat (q : Q)
| MInt (z : Z)
| MBool (b : bool)
| MList (l : list string).

Record ChatState : Type := mkChatState {
  original_message : string;
  current_message : string;
  supervisor_decision : option SupervisorDecision;
  rewriter_response : option RewriterResponse;
  tool_results : dict string;
  final_response : string;
  metadata : dict MetaValue;
  next_node : string;
  iteration_count : Z;
  max_iterations : Z
}.

(** [ChatState(original_message=message)]: every other field takes its
    declared default. *)
Definition ChatState_new (message : string) : ChatState :=
  {| original_message := message;
     current_message := "";
     supervisor_decision := None;
     rewriter_response := None;
     tool_results := [];
     final_response := "";
     metadata := [];
     next_node := "";
     iteration_count := 0;
     max_iterations := 3 |}.

Definition DataFrame : Type := list (string * list Q).

Record AgentResponse : Type := mkAgentResponse {
  text : string;
  visualizations : option (list string);
  data : option DataFrame;
  resp_metadata : dict MetaValue
}.

(** ** Messages exchanged with the language model *)

Record ToolCall : Type := mkToolCall {
  tc_name : string;
  tc_args : dict string;
  tc_id : string
}.

Inductive Message : Type :=
| SystemMessage (content : string)
| HumanMessage (content : string)
| AIMessage (content : string) (tool_calls : list ToolCall)
| ToolMessage (content : string) (tool_call_id : string)
| RoleDict (role content : string).

(** Reply of the tool-bound model: an AI message with its tool calls. *)
Record AIReply : Type := mkAIReply {
  ai_content : string;
  ai_tool_calls : list ToolCall
}.

(** Reply of the plain model: an object with a [content] attribute, or
    anything else, of which only [str(...)] is observed. *)
Inductive Reply : Type :=
| WithContent (content : string)
| NoContent (repr : string).

(** The four prompt templates of [get_prompts()]. *)
Record Prompts : Type := mkPrompts {
  supervisor_system : string;
  rewriter_system : string;
  response_system : string;
  tool_selector : string
}.

(** ** The machine state and its monad *)

Inductive Node : Type :=
| Supervisor | Rewriter | ToolSelector | ResponseGenerator | END.

Definition Node_eqb (a b : Node) : bool :=
  match a, b with
  | Supervisor, Supervisor | Rewriter, Rewriter | ToolSelector, ToolSelector
  | ResponseGenerator, ResponseGenerator | END, END => true
  | _, _ => false
  end.

(** What an observer of a turn sees: nodes entered and gateway calls made. *)
Inductive Event : Type :=
| NodeRun (n : Node)
| CallDecision (messages : list Message)
| CallRewrite (messages : list Message)
| CallTools (messages : list Message)
| CallPlain (messages : list Message) (result : Outcome Reply)
| CallTool (name : string).

Section Machine.

(** Hidden state of the external collaborators. *)
Variable Sigma : Type.

Record Machine : Type := mkMachine {
  chat : ChatState;                    (* the Turn State object *)
  memory : option (list Message);      (* self.memory.chat_memory.messages *)
  trace : list Event;                  (* observer's log, not read by the code *)
  ext : Sigma
}.

Definition M (A : Type) : Type := Machine -> Outcome A * Machine.

Definition ret {A} (a : A) : M A := fun m => (Ok a, m).

Definition bind {A B} (c : M A) (k : A -> M B) : M B :=
  fun m =>
    match c m with
    | (Ok a, m') => k a m'
    | (Raise e, m') => (Raise e, m')
    end.

Definition raise {A} (e : Exn) : M A := fun m => (Raise e, m).

(** [try: c / except Exception as e: h e]; mutations made by [c] before it
    raised stay visible to [h]. *)
Definition try_except {A} (c : M A) (h : Exn -> M A) : M A :=
  fun m =>
    match c m with
    | (Ok a, m') => (Ok a, m')
    | (Raise e, m') => h e m'
    end.

Definition get_chat : M ChatState := fun m => (Ok (chat m), m).

Definition get_memory : M (option (list Message)) := fun m => (Ok (memory m), m).

Definition update_chat (f : ChatState -> ChatState) : M unit :=
  fun m => (Ok tt, {| chat := f (chat m); memory := memory m;
                      trace := trace m; ext := ext m |}).

(** [chat_memory.add_user_message] and [chat_memory.add_ai_message] *)
Definition add_user_message (msg : string) : M unit :=
  fun m => (Ok tt, {| chat := chat m;
                      memory := option_map (fun h => h ++ [HumanMessage msg])
                                  (memory m);
                      trace := trace m; ext := ext m |}).

Definition add_ai_message (msg : string) : M unit :=
  fun m => (Ok tt, {| chat := chat m;
                      memory := option_map (fun h => h ++ [AIMessage msg []])
                                  (memory m);
                      trace := trace m; ext := ext m |}).

Definition log (ev : Event) : M unit :=
  fun m => (Ok tt, {| chat := chat m; memory := memory m;
                      trace := trace m ++ [ev]; ext := ext m |}).

(** A call to a collaborator: it sees and changes only the hidden state. *)
Definition call {A} (f : Sigma -> Outcome A * Sigma) : M A :=
  fun m =>
    let '(r, x) := f (ext m) in
    (r, {| chat := chat m; memory := memory m; trace := trace m; ext := x |}).

End Machine.

Arguments mkMachine {Sigma}.
Arguments chat {Sigma}.
Arguments memory {Sigma}.
Arguments trace {Sigma}.
Arguments ext {Sigma}.
Arguments ret {Sigma A}.
Arguments bind {Sigma A B}.
Arguments raise {Sigma A}.
Arguments try_except {Sigma A}.
Arguments get_chat {Sigma}.
Arguments get_memory {Sigma}.
Arguments update_chat {Sigma}.
Arguments add_user_message {Sigma}.
Arguments add_ai_message {Sigma}.
Arguments log {Sigma}.
Arguments call {Sigma A}.

Declare Scope agent_scope.
Delimit Scope agent_scope with agent.
Notation "x <- c ;; k" := (bind c (fun x => k))
  (at level 61, c at next level, right associativity) : agent_scope.
Notation "c ;; k" := (bind c (fun _ => k))
  (at level 61, right associativity) : agent_scope.
Local Open Scope agent_scope.

(** The external collaborators of one agent. *)
Record Collaborators (Sigma : Type) : Type := mkCollaborators {
  (* llm.with_structured_output(SupervisorDecision).invoke *)
  gateway_decision :
    list Message -> Sigma -> Outcome (option SupervisorDecision) * Sigma;
  (* llm.with_structured_output(RewriterResponse).invoke *)
  gateway_rewrite :
    list Message -> Sigma -> Outcome (option RewriterResponse) * Sigma;
  (* llm.bind_tools(tools).invoke *)
  gateway_tools : list Message -> Sigma -> Outcome AIReply * Sigma;
  (* llm.invoke *)
  gateway_plain : list Message -> Sigma -> Outcome Reply * Sigma;
  (* tool.invoke(args) of the registered tool with that name *)
  tool_invoke : string -> dict string -> Sigma -> Outcome string * Sigma;
  prompts : Prompts;
  (* super-steps the graph runner allows before it raises *)
  recursion_limit : nat
}.
Arguments gateway_decision {Sigma}.
Arguments gateway_rewrite {Sigma}.
Arguments gateway_tools {Sigma}.
Arguments gateway_plain {Sigma}.
Arguments tool_invoke {Sigma}.
Arguments prompts {Sigma}.
Arguments recursion_limit {Sigma}.

(** ** graph_nodes.py *)

Section GraphNodes.

Variable Sigma : Type.
Variable env : Collaborators Sigma.

Local Abbreviation M := (M Sigma).

(** Names of the tools returned by [get_tools()] (tools.py). *)
Definition get_tools : list string :=
  ["get_data"; "get_timeseries"; "get_statistics"; "get_last_value"].

(** [next((t for t in tools if t.name == name), None)] is not [None]. *)
Definition find_tool (name : string) : bool :=
  existsb (String.eqb name) get_tools.

(** Gateway calls, each recorded in the observer's log. *)
Definition structured_decision (messages : list Message)
  : M (option SupervisorDecision) :=
  log (CallDecision messages) ;; call (gateway_decision env messages).

Definition structured_rewrite (messages : list Message)
  : M (option RewriterResponse) :=
  log (CallRewrite messages) ;; call (gateway_rewrite env messages).

Definition llm_with_tools_invoke (messages : list Message) : M AIReply :=
  log (CallTools messages) ;; call (gateway_tools env messages).

Definition llm_invoke (messages : list Message) : M Reply :=
  fun m =>
    let '(r, m') := call (gateway_plain env messages) m in
    match log (CallPlain messages r) m' with
    | (_, m'') => (r, m'')
    end.

Definition tool_run (name : string) (args : dict string) : M string :=
  log (CallTool name) ;; call (tool_invoke env name args).

(** Reading an attribute of a value that may be [None]. *)
Definition attribute {A B} (attr : string) (f : A -> B) (o : option A) : M B :=
  match o with
  | Some a => ret (f a)
  | None =>
      raise (mkExn "AttributeError"
               ("'NoneType' object has no attribute '" +++ attr +++ "'"))
  end.

(** [_create_tool_summary] *)
Definition _create_tool_summary (tool_results : dict string) : string :=
  str_join "; " (map (fun '(tool_name, result) => tool_name +++ ": " +++ result)
                     tool_results).

(** [_create_simple_messages]; [mem] is [self.memory]. *)
Definition _create_simple_messages (mem : option (list Message))
    (system_prompt user_message : string)
    (additional_context : option string) (include_history : bool)
    (history_limit : nat) (tool_results : option (dict string))
  : list Message :=
  let messages := [SystemMessage system_prompt] in
  let messages :=
    match include_history, mem with
    | true, Some ((_ :: _) as history) => messages ++ py_last history_limit history
    | _, _ => messages
    end in
  let messages :=
    match tool_results with
    | Some ((_ :: _) as results) =>
        let tool_summary := _create_tool_summary results in
        if str_truthy tool_summary
        then messages ++ [AIMessage ("Context: " +++ tool_summary) []]
        else messages
    | _ => messages
    end in
  let messages :=
    match additional_context with
    | Some ctx =>
        if str_truthy ctx then messages ++ [AIMessage ctx []] else messages
    | None => messages
    end in
  messages ++ [HumanMessage user_message].

(** [_create_response_messages] *)
Definition _create_response_messages (mem : option (list Message))
    (state : ChatState) : list Message :=
  _create_simple_messages mem (response_system (prompts env))
    (original_message state) None true 2 (Some (tool_results state)).

(** Field assignments on the state object. *)
Definition set_supervisor_decision (d : option SupervisorDecision)
    (s : ChatState) : ChatState :=
  {| original_message := original_message s;
     current_message := current_message s;
     supervisor_decision := d;
     rewriter_response := rewriter_response s;
     tool_results := tool_results s;
     final_response := final_response s;
     metadata := metadata s;
     next_node := next_node s;
     iteration_count := iteration_count s;
     max_iterations := max_iterations s |}.

Definition set_current_message (msg : string) (s : ChatState) : ChatState :=
  {| original_message := original_message s;
     current_message := msg;
     supervisor_decision := supervisor_decision s;
     rewriter_response := rewriter_response s;
     tool_results := tool_results s;
     final_response := final_response s;
     metadata := metadata s;
     next_node := next_node s;
     iteration_count := iteration_count s;
     max_iterations := max_iterations s |}.

Definition set_rewriter_response (r : option RewriterResponse)
    (s : ChatState) : ChatState :=
  {| original_message := original_message s;
     current_message := current_message s;
     supervisor_decision := supervisor_decision s;
     rewriter_response := r;
     tool_results := tool_results s;
     final_response := final_response s;
     metadata := metadata s;
     next_node := next_node s;
     iteration_count := iteration_count s;
     max_iterations := max_iterations s |}.

Definition set_tool_results (t : dict string) (s : ChatState) : ChatState :=
  {| original_message := original_message s;
     current_message := current_message s;
     supervisor_decision := supervisor_decision s;
     rewriter_response := rewriter_response s;
     tool_results := t;
     final_response := final_response s;
     metadata := metadata s;
     next_node := next_node s;
     iteration_count := iteration_count s;
     max_iterations := max_iterations s |}.

Definition set_final_response (r : string) (s : ChatState) : ChatState :=
  {| original_message := original_message s;
     current_message := current_message s;
     supervisor_decision := supervisor_decision s;
     rewriter_response := rewriter_response s;
     tool_results := tool_results s;
     final_response := r;
     metadata := metadata s;
     next_node := next_node s;
     iteration_count := iteration_count s;
     max_iterations := max_iterations s |}.

Definition set_metadata (md : dict MetaValue) (s : ChatState) : ChatState :=
  {| original_message := original_message s;
     current_message := current_message s;
     supervisor_decision := supervisor_decision s;
     rewriter_response := rewriter_response s;
     tool_results := tool_results s;
     final_response := final_response s;
     metadata := md;
     next_node := next_node s;
     iteration_count := iteration_count s;
     max_iterations := max_iterations s |}.

Definition incr_iteration_count (s : ChatState) : ChatState :=
  {| original_message := original_message s;
     current_message := current_message s;
     supervisor_decision := supervisor_decision s;
     rewriter_response := rewriter_response s;
     tool_results := tool_results s;
     final_response := final_response s;
     metadata := metadata s;
     next_node := next_node s;
     iteration_count := (iteration_count s + 1)%Z;
     max_iterations := max_iterations s |}.

(** The decision stored when the supervisor's [try] block raised. *)
Definition error_decision (e : Exn) : SupervisorDecision :=
  {| intent := error;
     confidence := 0;
     needs_rewrite := false;
     reasoning := "Error in supervisor: " +++ exn_msg e |}.

(** [supervisor_node] *)
Definition supervisor_node : M unit :=
  try_except
    (state <- get_chat ;;
     mem <- get_memory ;;
     let message_to_analyze :=
       str_or (current_message state) (original_message state) in
     let messages :=
       _create_simple_messages mem (supervisor_system (prompts env))
         message_to_analyze None true 6 None in
     decision <- structured_decision messages ;;
     update_chat (set_supervisor_decision decision) ;;
     update_chat (set_current_message message_to_analyze) ;;
     update_chat incr_iteration_count ;;
     (* the log line reads decision.intent and decision.confidence *)
     _ <- attribute "intent" intent decision ;;
     ret tt)
    (fun e => update_chat (set_supervisor_decision (Some (error_decision e)))).

(** [rewriter_node] *)
Definition rewriter_node : M unit :=
  try_except
    (state <- get_chat ;;
     mem <- get_memory ;;
     let additional_context :=
       match supervisor_decision state with
       | Some d =>
           if str_truthy (reasoning d)
           then Some ("Supervisor reasoning: " +++ reasoning d)
           else None
       | None => None
       end in
     let messages :=
       _create_simple_messages mem (rewriter_system (prompts env))
         (original_message state) additional_context true 6 None in
     rewrite <- structured_rewrite messages ;;
     update_chat (set_rewriter_response rewrite) ;;
     msg <- attribute "rewritten_message" rewritten_message rewrite ;;
     update_chat (set_current_message msg))
    (fun _ =>
       (* Keep original message *)
       state <- get_chat ;;
       update_chat (set_current_message (original_message state))).

(** One pass of [for tool_call in ai_response.tool_calls]: the local
    [messages] and [tool_results] go in and come out. *)
Definition run_tool_call (tool_call : ToolCall)
    (messages : list Message) (results : dict string)
  : M (list Message * dict string) :=
  if find_tool (tc_name tool_call) then
    try_except
      (observation <- tool_run (tc_name tool_call) (tc_args tool_call) ;;
       ret (messages ++ [ToolMessage observation (tc_id tool_call)],
            dict_set (tc_name tool_call) observation results))
      (fun tool_error =>
         let error_msg :=
           "Error executing " +++ tc_name tool_call +++ ": "
             +++ exn_msg tool_error in
         ret (messages ++ [ToolMessage error_msg (tc_id tool_call)], results))
  else
    let error_msg := "Tool " +++ tc_name tool_call +++ " not found" in
    ret (messages ++ [ToolMessage error_msg (tc_id tool_call)], results).

Fixpoint run_tool_calls (calls : list ToolCall)
    (messages : list Message) (results : dict string)
  : M (list Message * dict string) :=
  match calls with
  | [] => ret (messages, results)
  | tool_call :: rest =>
      mr <- run_tool_call tool_call messages results ;;
      run_tool_calls rest (fst mr) (snd mr)
  end.

Definition max_iterations_tools : nat := 5.

Definition final_instruction : Message :=
  RoleDict "user"
    "Please provide your final answer based on the information gathered.".

(** [final_response.content if hasattr(final_response, "content")
     else str(final_response)] *)
Definition reply_text (r : Reply) : string :=
  match r with
  | WithContent c => c
  | NoContent repr => repr
  end.

(** The [while iteration < max_iterations] loop and what follows it;
    [remaining] is [max_iterations - iteration]. *)
Fixpoint tool_loop (remaining : nat)
    (messages : list Message) (results : dict string) : M unit :=
  match remaining with
  | O =>
      (* max iterations reached: one more call, without tools *)
      final <- llm_invoke (messages ++ [final_instruction]) ;;
      update_chat
        (set_tool_results
           (dict_set "llm_final_response" (reply_text final) results))
  | S remaining' =>
      ai_response <- llm_with_tools_invoke messages ;;
      match ai_tool_calls ai_response with
      | [] =>
          update_chat
            (set_tool_results
               (dict_set "llm_final_response" (ai_content ai_response)
                  results))
      | requested =>
          let messages :=
            messages ++ [AIMessage (ai_content ai_response) requested] in
          mr <- run_tool_calls requested messages results ;;
          tool_loop remaining' (fst mr) (snd mr)
      end
  end.

(** [tool_selector_node] *)
Definition tool_selector_node : M unit :=
  try_except
    (state <- get_chat ;;
     mem <- get_memory ;;
     let messages :=
       _create_simple_messages mem (tool_selector (prompts env))
         (current_message state) None true 6 None in
     tool_loop max_iterations_tools messages [])
    (fun e =>
       update_chat
         (set_tool_results
            [("error",
              "I encountered an error while processing your request: "
                +++ exn_msg e)])).

Definition apology_format : string :=
  "I apologize, but I couldn't generate a proper response. Please try again.".

Definition apology_error : string :=
  "I'm sorry, I encountered an error processing your request. Please try again.".

(** The metadata written at the end of the responder's [try] block. *)
Definition turn_metadata (state : ChatState) : dict MetaValue :=
  [("intent",
    MStr match supervisor_decision state with
         | Some d => intent_str (intent d)
         | None => "unknown"
         end);
   ("confidence",
    MFloat match supervisor_decision state with
           | Some d => confidence d
           | None => 0
           end);
   ("tools_used", MList (dict_keys (tool_results state)));
   ("iterations", MInt (iteration_count state));
   ("was_rewritten",
    MBool match rewriter_response state with
          | Some _ => true
          | None => false
          end)].

(** [response_generator_node] *)
Definition response_generator_node : M unit :=
  try_except
    (state <- get_chat ;;
     mem <- get_memory ;;
     match dict_get "llm_final_response" (tool_results state) with
     | Some answer => update_chat (set_final_response answer)
     | None =>
         match dict_get "error" (tool_results state) with
         | Some err => update_chat (set_final_response err)
         | None =>
             let messages := _create_response_messages mem state in
             response <- llm_invoke messages ;;
             match response with
             | WithContent c => update_chat (set_final_response c)
             | NoContent _ => update_chat (set_final_response apology_format)
             end
         end
     end ;;
     (* Update memory *)
     state <- get_chat ;;
     match mem with
     | Some _ =>
         add_user_message (current_message state) ;;
         add_ai_message (final_response state)
     | None => ret tt
     end ;;
     (* Set metadata *)
     state <- get_chat ;;
     update_chat (set_metadata (turn_metadata state)))
    (fun e =>
       update_chat (set_final_response apology_error) ;;
       update_chat (set_metadata [("error", MStr (exn_msg e))])).

(** [supervisor_router]: the name of the outgoing edge, already mapped to
    its target node by the table given to [add_conditional_edges]. *)
Definition supervisor_router (state : ChatState) : Node :=
  match supervisor_decision state with
  | None => END
  | Some decision =>
      if needs_rewrite decision
         && match rewriter_response state with None => true | Some _ => false end
      then Rewriter
      else if Intent_eqb (intent decision) tool_required then ToolSelector
      else ResponseGenerator
  end.

End GraphNodes.

Arguments get_tools : clear implicits.
Arguments find_tool : clear implicits.

(** ** chat_agent.py *)

Section ChatAgent.

Variable Sigma : Type.
Variable env : Collaborators Sigma.

Local Abbreviation M := (M Sigma).

(** The node functions registered in [_build_graph]. *)
Definition run_node (n : Node) : M unit :=
  match n with
  | Supervisor => supervisor_node Sigma env
  | Rewriter => rewriter_node Sigma env
  | ToolSelector => tool_selector_node Sigma env
  | ResponseGenerator => response_generator_node Sigma env
  | END => ret tt
  end.

(** The edges added in [_build_graph]. *)
Definition successor (n : Node) (state : ChatState) : Node :=
  match n with
  | Supervisor => supervisor_router state
  | Rewriter => Supervisor
  | ToolSelector => ResponseGenerator
  | ResponseGenerator => END
  | END => END
  end.

Definition GraphRecursionError : Exn :=
  mkExn "GraphRecursionError"
    "Recursion limit reached without hitting a stop condition.".

(** The graph runner: one node per super-step, at most [steps] of them. *)
Fixpoint run_graph (steps : nat) (n : Node) : M unit :=
  match n with
  | END => ret tt
  | _ =>
      match steps with
      | O => raise GraphRecursionError
      | S steps' =>
          log (NodeRun n) ;;
          run_node n ;;
          state <- get_chat ;;
          run_graph steps' (successor n state)
      end
  end.

(** [compiled_graph.invoke(initial_state)] *)
Definition compiled_graph_invoke (initial_state : ChatState) : M ChatState :=
  update_chat (fun _ => initial_state) ;;
  run_graph (recursion_limit env) Supervisor ;;
  get_chat.

Record GraphChatAgent : Type := mkAgent { is_initialized : bool }.

(** [__init__] *)
Definition GraphChatAgent_init : GraphChatAgent :=
  {| is_initialized := false |}.

(** [initialize]; [setup] is the outcome of building and compiling the
    graph, re-raised when it failed. *)
Definition initialize (setup : Outcome unit) (agent : GraphChatAgent)
  : Outcome unit * GraphChatAgent :=
  match setup with
  | Ok _ => (Ok tt, {| is_initialized := true |})
  | Raise e => (Raise e, agent)
  end.

Definition not_initialized_error : Exn :=
  mkExn "RuntimeError"
    "GraphChatAgent not initialized. Call initialize() first.".

(** [process_message] *)
Definition process_message (agent : GraphChatAgent) (message : string)
  : M AgentResponse :=
  if negb (is_initialized agent) then raise not_initialized_error
  else
    try_except
      (let initial_state := ChatState_new message in
       final_state <- compiled_graph_invoke initial_state ;;
       ret {| text := final_response final_state;
              visualizations := Some [];
              data := None;
              resp_metadata := metadata final_state |})
      (fun e =>
         ret {| text := apology_error;
                visualizations := None;
                data := None;
                resp_metadata :=
                  [("error", MStr (exn_msg e));
                   ("type", MStr "graph_execution_error")] |}).

End ChatAgent.

Arguments GraphChatAgent_init : clear implicits.
Arguments GraphRecursionError : clear implicits.
Arguments not_initialized_error : clear implicits.
Arguments initialize : clear implicits.

Arguments structured_decision {Sigma} env messages.
Arguments structured_rewrite {Sigma} env messages.
Arguments llm_with_tools_invoke {Sigma} env messages.
Arguments llm_invoke {Sigma} env messages.
Arguments tool_run {Sigma} env name args.
Arguments attribute {Sigma A B} attr f o.
Arguments _create_response_messages {Sigma} env mem state.
Arguments supervisor_node {Sigma} env.
Arguments rewriter_node {Sigma} env.
Arguments run_tool_call {Sigma} env tool_call messages results.
Arguments run_tool_calls {Sigma} env calls messages results.
Arguments tool_loop {Sigma} env remaining messages results.
Arguments tool_selector_node {Sigma} env.
Arguments response_generator_node {Sigma} env.
Arguments run_node {Sigma} env n.
Arguments run_graph {Sigma} env steps n.
Arguments compiled_graph_invoke {Sigma} env initial_state.
Arguments process_message {Sigma} env agent message.

(** ** Observations on a finished run *)

Definition is_gateway_call (ev : Event) : bool :=
  match ev with
  | CallDecision _ | CallRewrite _ | CallTools _ | CallPlain _ _ => true
  | NodeRun _ | CallTool _ => false
  end.

(** The gateway calls of a trace, in order. *)
Definition gateway_calls (tr : list Event) : list Event :=
  filter is_gateway_call tr.

Definition is_visit (n : Node) (ev : Event) : bool :=
  match ev with
  | NodeRun n' => Node_eqb n n'
  | _ => false
  end.

(** How many times node [n] was entered. *)
Definition visits (n : Node) (tr : list Event) : nat :=
  length (filter (is_visit n) tr).

Definition metadata_keys : list string :=
  ["intent"; "confidence"; "tools_used"; "iterations"; "was_rewritten"].

Definition metadata_complete (md : dict MetaValue) : bool :=
  forallb (fun k => dict_mem k md) metadata_keys.

(** The machine right after the tool-bound model was asked [msgs] and left
    the collaborators in state [x]. *)
Definition after_tools_call {Sigma} (m : Machine Sigma)
    (msgs : list Message) (x : Sigma) : Machine Sigma :=
  {| chat := chat m; memory := memory m;
     trace := trace m ++ [CallTools msgs]; ext := x |}.

(** What one tool request leaves behind in the message sequence: an
    observation under the request's correlation id. *)
Definition answers (tool_call : ToolCall) (observation : Message) : Prop :=
  exists content,
    observation = ToolMessage content (tc_id tool_call) /\
    (find_tool (tc_name tool_call) = false ->
     content = "Tool " +++ tc_name tool_call +++ " not found").

(** The dispatch loop after [n] iterations in each of which the reply of the
    tool-bound model carried tool requests: the messages and results
    accumulated so far and the machine reached; [None] when, on this run,
    one of these [n] replies raised or carried no request. *)
Fixpoint after_iterations {Sigma} (env : Collaborators Sigma) (n : nat)
    (msgs : list Message) (results : dict string) (m : Machine Sigma)
  : option (list Message * dict string * Machine Sigma) :=
  match n with
  | O => Some (msgs, results, m)
  | S n' =>
      match gateway_tools env msgs (ext m) with
      | (Ok reply, x) =>
          match ai_tool_calls reply with
          | [] => None
          | _ :: _ =>
              match run_tool_calls env (ai_tool_calls reply)
                      (msgs ++ [AIMessage (ai_content reply)
                                  (ai_tool_calls reply)])
                      results (after_tools_call m msgs x) with
              | (Ok (msgs', results'), m') =>
                  after_iterations env n' msgs' results' m'
              | (Raise _, _) => None
              end
          end
      | (Raise _, _) => None
      end
  end.

(** What the synthesis call of the Responder returns on this machine, when
    the Responder gets as far as making it. *)
Definition synthesis_outcome {Sigma} (env : Collaborators Sigma)
    (m : Machine Sigma) : option (Outcome Reply) :=
  match dict_get "llm_final_response" (tool_results (chat m)),
        dict_get "error" (tool_results (chat m)) with
  | None, None =>
      Some (fst (gateway_plain env
                   (_create_response_messages env (memory m) (chat m))
                   (ext m)))
  | _, _ => None
  end.

(** A computation that leaves the conversation history alone. *)
Definition keeps_memory {Sigma A} (c : M Sigma A) : Prop :=
  forall m, memory (snd (c m)) = memory m.

(** A computation that always returns and never raises. *)
Definition never_raises {Sigma A} (c : M Sigma A) : Prop :=
  forall m, exists a m', c m = (Ok a, m').

(** The machine right after the graph runner entered node [n]. *)
Definition entered {Sigma} (m : Machine Sigma) (n : Node) : Machine Sigma :=
  {| chat := chat m; memory := memory m;
     trace := trace m ++ [NodeRun n]; ext := ext m |}.

(** ** Concrete collaborators *)

Module Scenario.

Definition sample_prompts : Prompts :=
  {| supervisor_system := "classify the message";
     rewriter_system := "rewrite the message";
     response_system := "answer the user";
     tool_selector := "use the tools" |}.

Definition start (message : string) (mem : option (list Message))
  : Machine unit :=
  {| chat := ChatState_new message; memory := mem; trace := []; ext := tt |}.

Definition timeout : Exn := mkExn "TimeoutError" "model timed out".

Definition ambiguous : SupervisorDecision :=
  {| intent := unclear; confidence := 3 # 10; needs_rewrite := true;
     reasoning := "ambiguous request" |}.

Definition greeting : SupervisorDecision :=
  {| intent := conversation; confidence := 95 # 100; needs_rewrite := false;
     reasoning := "greeting" |}.

Definition wants_data : SupervisorDecision :=
  {| intent := tool_required; confidence := 9 # 10; needs_rewrite := false;
     reasoning := "needs data" |}.

(** A model that answers every greeting. *)
Definition friendly : Collaborators unit :=
  {| gateway_decision := fun _ x => (Ok (Some greeting), x);
     gateway_rewrite := fun _ x => (Ok None, x);
     gateway_tools := fun _ x => (Ok (mkAIReply "nothing to fetch" []), x);
     gateway_plain := fun _ x => (Ok (WithContent "Hello! How can I help?"), x);
     tool_invoke := fun _ _ x => (Ok "", x);
     prompts := sample_prompts;
     recursion_limit := 25 |}.

(** The classifier keeps asking for a rewrite and the rewriter call keeps
    failing. *)
Definition stuck : Collaborators unit :=
  {| gateway_decision := fun _ x => (Ok (Some ambiguous), x);
     gateway_rewrite := fun _ x => (Raise timeout, x);
     gateway_tools := fun _ x => (Ok (mkAIReply "nothing to fetch" []), x);
     gateway_plain := fun _ x => (Ok (WithContent "Hello!"), x);
     tool_invoke := fun _ _ x => (Ok "", x);
     prompts := sample_prompts;
     recursion_limit := 25 |}.

(** The classifier call itself fails. *)
Definition deaf : Collaborators unit :=
  {| gateway_decision := fun _ x => (Raise timeout, x);
     gateway_rewrite := fun _ x => (Ok None, x);
     gateway_tools := fun _ x => (Ok (mkAIReply "nothing to fetch" []), x);
     gateway_plain := fun _ x => (Ok (WithContent "Sorry, try again."), x);
     tool_invoke := fun _ _ x => (Ok "", x);
     prompts := sample_prompts;
     recursion_limit := 25 |}.

(** The classifier works, the synthesis call of the responder fails. *)
Definition mute : Collaborators unit :=
  {| gateway_decision := fun _ x => (Ok (Some greeting), x);
     gateway_rewrite := fun _ x => (Ok None, x);
     gateway_tools := fun _ x => (Ok (mkAIReply "nothing to fetch" []), x);
     gateway_plain := fun _ x => (Raise timeout, x);
     tool_invoke := fun _ _ x => (Ok "", x);
     prompts := sample_prompts;
     recursion_limit := 25 |}.

Definition ask_assets : ToolCall :=
  {| tc_name := "get_data"; tc_args := []; tc_id := "call-1" |}.

Definition ask_weather : ToolCall :=
  {| tc_name := "get_weather"; tc_args := []; tc_id := "call-2" |}.

Definition ask_stats : ToolCall :=
  {| tc_name := "get_statistics"; tc_args := [("asset", "PUMP-7")];
     tc_id := "call-3" |}.

(** The tool-bound model asks for tools on every reply; [get_statistics]
    rejects its arguments. *)
Definition insatiable : Collaborators unit :=
  {| gateway_decision := fun _ x => (Ok (Some wants_data), x);
     gateway_rewrite := fun _ x => (Ok None, x);
     gateway_tools :=
       fun _ x => (Ok (mkAIReply "" [ask_assets; ask_weather; ask_stats]), x);
     gateway_plain := fun _ x => (Ok (WithContent "Three assets found."), x);
     tool_invoke :=
       fun name _ x =>
         if String.eqb name "get_statistics"
         then (Raise (mkExn "ValidationError" "asset_key missing"), x)
         else (Ok "3 assets", x);
     prompts := sample_prompts;
     recursion_limit := 25 |}.

Definition ready : GraphChatAgent := {| is_initialized := true |}.

End Scenario.

(** ** Further observations *)

Definition is_node_run (ev : Event) : bool :=
  match ev with
  | NodeRun _ => true
  | _ => false
  end.

(** The nodes the graph runner entered, in order. *)
Definition node_runs (tr : list Event) : list Event := filter is_node_run tr.

(** A computation that leaves the observation [g] of the Turn State alone. *)
Definition keeps_field {Sigma A X} (g : ChatState -> X) (c : M Sigma A) : Prop :=
  forall m, g (chat (snd (c m))) = g (chat m).

(** A computation that is not the graph runner: it enters no node. *)
Definition keeps_node_runs {Sigma A} (c : M Sigma A) : Prop :=
  forall m, node_runs (trace (snd (c m))) = node_runs (trace m).

(** The Rewriter's gateway call returns a rewrite whenever it is made. *)
Definition rewriter_always_answers {Sigma} (env : Collaborators Sigma) : Prop :=
  forall msgs s, exists r s',
    gateway_rewrite env msgs s = (Ok (Some r), s').

(** The text stored under the [error] key by a failed Tool-Dispatcher. *)
Definition dispatch_error_text (e : Exn) : string :=
  "I encountered an error while processing your request: " +++ exn_msg e.

(** Results recorded for executed tools: registered names, each once. *)
Definition tool_entries (results : dict string) : Prop :=
  NoDup (dict_keys results) /\
  Forall (fun name => find_tool name = true) (dict_keys results).

Module Cases.

Definition clarified : RewriterResponse :=
  {| rewritten_message :=
       "show me statistics and any anomalies in the SENSOR-001 data";
     clarifications_added := ["asset"; "analysis"];
     rw_confidence := 8 # 10 |}.

(** The structured-output parser of the Classifier finds nothing to parse. *)
Definition garbled : Collaborators unit :=
  {| gateway_decision := fun _ x => (Ok None, x);
     gateway_rewrite := fun _ x => (Ok None, x);
     gateway_tools := fun _ x => (Ok (mkAIReply "nothing to fetch" []), x);
     gateway_plain := fun _ x => (Ok (WithContent "Could you rephrase?"), x);
     tool_invoke := fun _ _ x => (Ok "", x);
     prompts := Scenario.sample_prompts;
     recursion_limit := 25 |}.

(** The hidden state counts the Classifier calls: the first one asks for a
    rewrite, the later ones see a request for data.  The Rewriter answers,
    the tool-bound model fetches the assets once and then concludes. *)
Definition helpful : Collaborators nat :=
  {| gateway_decision :=
       fun _ k =>
         (Ok (Some (match k with
                    | O => Scenario.ambiguous
                    | S _ => Scenario.wants_data
                    end)), S k);
     gateway_rewrite := fun _ k => (Ok (Some clarified), k);
     gateway_tools :=
       fun msgs k =>
         (Ok (match msgs with
              | [_; _] => mkAIReply "" [Scenario.ask_assets]
              | _ => mkAIReply "There are 3 assets." []
              end), k);
     gateway_plain := fun _ k => (Ok (WithContent "unused"), k);
     tool_invoke := fun _ _ k => (Ok "3 assets", k);
     prompts := Scenario.sample_prompts;
     recursion_limit := 25 |}.

Definition begin (message : string) (mem : option (list Message))
  : Machine nat :=
  {| chat := ChatState_new message; memory := mem; trace := []; ext := O |}.

(** A model that wants data and answers at once, without asking for tools. *)
Definition direct : Collaborators unit :=
  {| gateway_decision := fun _ x => (Ok (Some Scenario.wants_data), x);
     gateway_rewrite := fun _ x => (Ok None, x);
     gateway_tools := fun _ x => (Ok (mkAIReply "No assets are online." []), x);
     gateway_plain := fun _ x => (Ok (WithContent "unused"), x);
     tool_invoke := fun _ _ x => (Ok "", x);
     prompts := Scenario.sample_prompts;
     recursion_limit := 25 |}.

End Cases.

(** ** agent_factory.py *)

Section Factory.

(** The language-model client object. *)
Variable Llm : Type.

(** Values of a configuration mapping ([Dict[str, Any]]). *)
Inductive Any : Type :=
| ANone
| AStr (s : string)
| AFloat (q : Q)
| AInt (z : Z)
| ABool (b : bool)
| ALlm (l : Llm)
| AMemory (messages : list Message).

(** What the factory reaches outside of itself. *)
Record Host : Type := mkHost {
  (* os.getenv *)
  getenv : string -> option string;
  (* the ChatLLM constructor, applied to llm_config *)
  ChatLLM : dict Any -> Outcome Llm;
  (* ConversationBufferMemory(..., max_token_limit=...) *)
  ConversationBufferMemory : Any -> Outcome unit;
  (* building and compiling the graph inside GraphChatAgent.initialize() *)
  graph_setup : Outcome unit
}.

(** [d.get(k, default)] *)
Definition dict_get_default {V} (k : string) (default : V) (d : dict V) : V :=
  match dict_get k d with
  | Some v => v
  | None => default
  end.

(** [a or b] on optional strings. *)
Definition opt_str_or (a b : option string) : option string :=
  match a with
  | Some s => if str_truthy s then a else b
  | None => b
  end.

Record AgentFactory : Type := mkFactory {
  factory_config : dict Any;
  factory_llm : option Llm;
  _initialized : bool
}.

Definition missing_api_key : Exn :=
  mkExn "ValueError"
    ("LLM_API_KEY environment variable is required. "
       +++ "Please set it in your environment or .env file.").

(** [AgentFactory._create_llm] *)
Definition _create_llm (host : Host) (config : dict Any) : Outcome Llm :=
  match opt_str_or (getenv host "LLM_API_KEY") (getenv host "GOOGLE_API_KEY")
  with
  | None => Raise missing_api_key
  | Some api_key =>
      if negb (str_truthy api_key) then Raise missing_api_key
      else
        let llm_config :=
          [("model", dict_get_default "model_name" (AStr "default-model") config);
           ("temperature", dict_get_default "temperature" (AFloat 0) config);
           ("max_tokens", dict_get_default "max_tokens" (AInt 2000) config);
           ("google_api_key", AStr api_key)] in
        match ChatLLM host llm_config with
        | Ok llm => Ok llm
        | Raise e =>
            Raise (mkExn "ValueError"
                     ("LLM initialization failed: " +++ exn_msg e))
        end
  end.

(** [AgentFactory(config)]: [__init__] with [_initialize_infrastructure];
    [_validate_config] only logs. *)
Definition AgentFactory_new (host : Host) (config : dict Any)
  : Outcome AgentFactory :=
  match _create_llm host config with
  | Ok llm =>
      Ok {| factory_config := config; factory_llm := Some llm;
            _initialized := true |}
  | Raise e => Raise e
  end.

(** A [GraphChatAgent] object: the configuration it was built from, its
    model client and memory, and its initialization flag. *)
Record AgentObject : Type := mkAgentObject {
  agent_config : dict Any;
  agent_llm : Any;
  agent_memory : Any;
  core : GraphChatAgent
}.

(** [{k: v for k, v in config.items() if k not in ["llm", "memory"]}] *)
Definition pass_through (config : dict Any) : dict Any :=
  filter (fun kv => negb (String.eqb (fst kv) "llm"
                          || String.eqb (fst kv) "memory")) config.

(** A dict display [{**base, **more}]. *)
Definition dict_update {V} (base more : dict V) : dict V :=
  fold_left (fun acc kv => dict_set (fst kv) (snd kv) acc) more base.

(** The [agent_config] built by [create_chat_agent]. *)
Definition build_agent_config (factory : AgentFactory) (memory : Any)
  : dict Any :=
  let config := factory_config factory in
  dict_update
    [("llm", match factory_llm factory with
             | Some llm => ALlm llm
             | None => ANone
             end);
     ("memory", memory);
     ("agent_type", AStr "chat");
     ("verbose", dict_get_default "verbose" (ABool false) config);
     ("max_iterations",
      dict_get_default "max_graph_iterations" (AInt 3) config);
     ("supervisor_confidence_threshold",
      dict_get_default "supervisor_confidence_threshold" (AFloat (7 # 10))
        config);
     ("max_rewrite_attempts",
      dict_get_default "max_rewrite_attempts" (AInt 2) config)]
    (pass_through config).

Definition key_error (k : string) : Exn := mkExn "KeyError" ("'" +++ k +++ "'").

(** [GraphChatAgent(config)] *)
Definition GraphChatAgent_new (config : dict Any) : Outcome AgentObject :=
  match dict_get "llm" config with
  | None => Raise (key_error "llm")
  | Some llm =>
      match dict_get "memory" config with
      | None => Raise (key_error "memory")
      | Some memory =>
          Ok {| agent_config := config; agent_llm := llm;
                agent_memory := memory; core := GraphChatAgent_init |}
      end
  end.

Definition factory_not_initialized : Exn :=
  mkExn "RuntimeError" "AgentFactory not initialized".

(** [AgentFactory.create_chat_agent] *)
Definition create_chat_agent (host : Host) (factory : AgentFactory)
  : Outcome AgentObject :=
  if negb (_initialized factory) then Raise factory_not_initialized
  else
    match ConversationBufferMemory host
            (dict_get_default "memory_token_limit" (AInt 2000)
               (factory_config factory)) with
    | Raise e => Raise e
    | Ok _ =>
        match GraphChatAgent_new (build_agent_config factory (AMemory [])) with
        | Raise e => Raise e
        | Ok chat_agent =>
            match initialize (graph_setup host) (core chat_agent) with
            | (Raise e, _) => Raise e
            | (Ok _, ready) =>
                Ok {| agent_config := agent_config chat_agent;
                      agent_llm := agent_llm chat_agent;
                      agent_memory := agent_memory chat_agent;
                      core := ready |}
            end
        end
    end.

(** [AgentFactory.get_llm_info] *)
Definition get_llm_info (factory : AgentFactory) : dict Any :=
  if negb (_initialized factory) then [("status", AStr "not_initialized")]
  else
    [("status", AStr "initialized");
     ("model", dict_get_default "model_name" (AStr "unknown")
                 (factory_config factory));
     ("temperature", dict_get_default "temperature" (AFloat 0)
                       (factory_config factory));
     ("max_tokens", dict_get_default "max_tokens" (AInt 2000)
                      (factory_config factory))].

(** The module-level singletons. *)
Record Globals : Type := mkGlobals {
  _agent_factory : option AgentFactory;
  _chat_agent : option AgentObject
}.

Definition globals_at_import : Globals :=
  {| _agent_factory := None; _chat_agent := None |}.

(** [initialize_factory] *)
Definition initialize_factory (host : Host) (config : dict Any) (g : Globals)
  : Outcome AgentFactory * Globals :=
  match AgentFactory_new host config with
  | Ok factory =>
      (Ok factory,
       {| _agent_factory := Some factory; _chat_agent := _chat_agent g |})
  | Raise e => (Raise e, g)
  end.

(** [get_chat_agent] *)
Definition get_chat_agent (host : Host) (config : dict Any) (g : Globals)
  : Outcome AgentObject * Globals :=
  let with_factory :=
    match _agent_factory g with
    | Some factory => (Ok factory, g)
    | None =>
        match initialize_factory host config g with
        | (Ok factory, g') =>
            (Ok factory,
             {| _agent_factory := Some factory;
                _chat_agent := _chat_agent g' |})
        | (Raise e, g') => (Raise e, g')
        end
    end in
  match with_factory with
  | (Raise e, g1) => (Raise e, g1)
  | (Ok factory, g1) =>
      match _chat_agent g1 with
      | Some chat_agent => (Ok chat_agent, g1)
      | None =>
          match create_chat_agent host factory with
          | Ok chat_agent =>
              (Ok chat_agent,
               {| _agent_factory := _agent_factory g1;
                  _chat_agent := Some chat_agent |})
          | Raise e => (Raise e, g1)
          end
      end
  end.

(** [reset_agents] *)
Definition reset_agents (g : Globals) : Globals :=
  {| _agent_factory := None; _chat_agent := None |}.

(** The mapping returned by [get_factory_status], by key. *)
Record FactoryStatus : Type := mkStatus {
  factory_initialized : bool;
  chat_agent_created : bool;
  llm_info : option (dict Any)
}.

(** [get_factory_status] *)
Definition get_factory_status (g : Globals) : FactoryStatus :=
  {| factory_initialized :=
       match _agent_factory g with Some _ => true | None => false end;
     chat_agent_created :=
       match _chat_agent g with Some _ => true | None => false end;
     llm_info := option_map get_llm_info (_agent_factory g) |}.

End Factory.

Arguments ANone {Llm}.
Arguments AStr {Llm} s.
Arguments AFloat {Llm} q.
Arguments AInt {Llm} z.
Arguments ABool {Llm} b.
Arguments ALlm {Llm} l.
Arguments AMemory {Llm} messages.
Arguments mkHost {Llm}.
Arguments getenv {Llm}.
Arguments ChatLLM {Llm}.
Arguments ConversationBufferMemory {Llm}.
Arguments graph_setup {Llm}.
Arguments mkFactory {Llm}.
Arguments factory_config {Llm}.
Arguments factory_llm {Llm}.
Arguments _initialized {Llm}.
Arguments _create_llm {Llm}.
Arguments AgentFactory_new {Llm}.
Arguments mkAgentObject {Llm}.
Arguments agent_config {Llm}.
Arguments agent_llm {Llm}.
Arguments agent_memory {Llm}.
Arguments core {Llm}.
Arguments pass_through {Llm}.
Arguments build_agent_config {Llm}.
Arguments GraphChatAgent_new {Llm}.
Arguments create_chat_agent {Llm}.
Arguments get_llm_info {Llm}.
Arguments mkGlobals {Llm}.
Arguments _agent_factory {Llm}.
Arguments _chat_agent {Llm}.
Arguments globals_at_import {Llm}.
Arguments initialize_factory {Llm}.
Arguments get_chat_agent {Llm}.
Arguments reset_agents {Llm}.
Arguments mkStatus {Llm}.
Arguments factory_initialized {Llm}.
Arguments chat_agent_created {Llm}.
Arguments llm_info {Llm}.
Arguments get_factory_status {Llm}.

(** Whether an environment variable holds a non-empty value. *)
Definition env_set {Llm} (host : Host Llm) (name : string) : bool :=
  match getenv host name with
  | Some value => str_truthy value
  | None => false
  end.

(** ** frontend/components/chat_interface.py *)

(** Values of a chat message mapping in the session state. *)
Inductive UIValue : Type :=
| UStr (s : string)
| UCharts (charts : list string)
| UTable (table : DataFrame).

(** [add_agent_response_to_history]; [messages] is
    [st.session_state.messages]. *)
Definition add_agent_response_to_history (response : AgentResponse)
    (messages : list (dict UIValue)) : list (dict UIValue) :=
  let message := [("role", UStr "assistant"); ("content", UStr (text response))] in
  let message :=
    match visualizations response with
    | Some ((_ :: _) as charts) => dict_set "visualizations" (UCharts charts) message
    | _ => message
    end in
  let message :=
    match data response with
    | Some table => dict_set "data" (UTable table) message
    | None => message
    end in
  messages ++ [message].

(** ** backend/data/api_connector.py *)

Section Connector.

(** A [DataSource] object and the request it is asked to serve. *)
Variable Source : Type.
Variable Request : Type.

(** [source.fetch_data(start_time, end_time, measurements, **kwargs)] *)
Variable source_fetch_data : Source -> Request -> Outcome DataFrame.

Record APIConnector : Type := mkConnector { sources : dict Source }.

(** [APIConnector()] *)
Definition APIConnector_new : APIConnector := {| sources := [] |}.

(** [add_source] *)
Definition add_source (source : Source) (name : string) (c : APIConnector)
  : APIConnector :=
  {| sources := dict_set name source (sources c) |}.

(** [get_source] *)
Definition get_source (name : string) (c : APIConnector) : option Source :=
  dict_get name (sources c).

(** [APIConnector.fetch_data] *)
Definition fetch_data (c : APIConnector) (source_name : string)
    (request : Request) : Outcome DataFrame :=
  match get_source source_name c with
  | None =>
      Raise (mkExn "ValueError"
               ("Data source '" +++ source_name +++ "' not found"))
  | Some source => source_fetch_data source request
  end.

(** [DataAccessManager().get_components()] (data_utils.py) *)
Definition DataAccessManager_components : APIConnector := APIConnector_new.

End Connector.

Arguments mkConnector {Source}.
Arguments sources {Source}.
Arguments APIConnector_new {Source}.
Arguments add_source {Source}.
Arguments get_source {Source}.
Arguments fetch_data {Source Request}.
Arguments DataAccessManager_components {Source}.

Module Hosts.

(** A model client is identified here by the configuration it was built
    from. *)
Definition Client : Type := list (string * string).

Definition describe (v : Any Client) : string :=
  match v with
  | AStr s => s
  | _ => ""
  end.

Definition connect (llm_config : dict (Any Client)) : Outcome Client :=
  Ok (map (fun kv => (fst kv, describe (snd kv))) llm_config).

(** No API key in the environment. *)
Definition bare : Host Client :=
  {| getenv := fun _ => None;
     ChatLLM := connect;
     ConversationBufferMemory := fun _ => Ok tt;
     graph_setup := Ok tt |}.

(** Only the fallback variable is set; [LLM_API_KEY] is empty. *)
Definition keyed : Host Client :=
  {| getenv := fun name =>
       if String.eqb name "GOOGLE_API_KEY" then Some "g-key"
       else if String.eqb name "LLM_API_KEY" then Some ""
       else None;
     ChatLLM := connect;
     ConversationBufferMemory := fun _ => Ok tt;
     graph_setup := Ok tt |}.

(** A key is set but the graph does not compile. *)
Definition broken_graph : Host Client :=
  {| getenv := fun name =>
       if String.eqb name "LLM_API_KEY" then Some "l-key" else None;
     ChatLLM := connect;
     ConversationBufferMemory := fun _ => Ok tt;
     graph_setup := Raise (mkExn "ValueError" "node already present") |}.

(** A configuration that tries to bring its own model client and memory. *)
Definition intrusive : dict (Any Client) :=
  [("model_name", AStr "gemini-pro");
   ("llm", AStr "my own client");
   ("memory", AStr "my own memory");
   ("agent_type", AStr "custom")].

End Hosts.

(** * Properties *)

(** Unfolds one layer of the monad so that a node body can be run by
    case analysis on what the collaborators return. *)
Ltac monad_unfold :=
  unfold bind, ret, raise, try_except, get_chat, get_memory, update_chat,
    add_user_message, add_ai_message, log, call in *.

(** ** The router *)


Lemma router_skips_rewriter_once_rewritten (state : ChatState) r :
  rewriter_response state = Some r -> supervisor_router state <> Rewriter.
Proof.
  intros Hr. unfold supervisor_router. rewrite Hr.
  destruct (supervisor_decision state) as [d|]; [|discriminate].
  rewrite andb_false_r.
  destruct (Intent_eqb (intent d) tool_required); discriminate.
Qed.

(** C2: the router is a function of the Turn State alone.  It selects the
    terminal node exactly when no classification is stored.  With a
    classification [d] it selects the Rewriter iff [d] asks for a rewrite
    and no rewrite result is stored; otherwise the Tool-Dispatcher iff the
    intent is [tool_required]; otherwise the Responder. *)
Theorem supervisor_router_table (state : ChatState) :
  match supervisor_decision state with
  | None => supervisor_router state = END
  | Some d =>
      let rewrite_pending :=
        needs_rewrite d = true /\ rewriter_response state = None in
      (supervisor_router state = Rewriter <-> rewrite_pending) /\
      (supervisor_router state = ToolSelector <->
         ~ rewrite_pending /\ intent d = tool_required) /\
      (supervisor_router state = ResponseGenerator <->
         ~ rewrite_pending /\ intent d <> tool_required) /\
      supervisor_router state <> END
  end.
Proof.
  unfold supervisor_router.
  destruct (supervisor_decision state) as [d|]; [|reflexivity].
  destruct (needs_rewrite d), (rewriter_response state) as [r|]; simpl;
    destruct (intent d); simpl;
    repeat split; try discriminate; try congruence;
    try (intros [Hp _]; exfalso; apply Hp; split; reflexivity);
    try (intros [_ Hp]; congruence);
    try (intros [Hp _]; congruence);
    try (intros [Hp Hq]; congruence).
Qed.

(** ** A fresh Turn State *)

(** C9, as stated, fails: a fresh Turn State for a non-empty message has an
    empty [current_message]. *)
Lemma fresh_state_current_message_differs :
  current_message (ChatState_new "hello")
  <> original_message (ChatState_new "hello").
Proof. simpl. discriminate. Qed.

(** C9, amended: a fresh Turn State has an empty [current_message] and the
    message as [original_message]; the Classifier reads the empty field as
    the original message, and once its gateway call has returned,
    [current_message] equals the original message. *)
Theorem fresh_state_current_message Sigma (env : Collaborators Sigma)
    (message : string) (m : Machine Sigma) d x :
  chat m = ChatState_new message ->
  gateway_decision env
    (_create_simple_messages (memory m) (supervisor_system (prompts env))
       message None true 6 None) (ext m) = (Ok d, x) ->
  current_message (ChatState_new message) = "" /\
  original_message (ChatState_new message) = message /\
  let state' := chat (snd (supervisor_node env m)) in
  current_message state' = message /\ original_message state' = message.
Proof.
  intros Hchat Hgw. split; [reflexivity|]. split; [reflexivity|].
  unfold supervisor_node, structured_decision. monad_unfold. simpl.
  rewrite Hchat. simpl.
  assert (Hor : str_or "" message = message) by reflexivity.
  rewrite Hor, Hgw.
  destruct d as [d|]; simpl; split; reflexivity.
Qed.

Lemma fresh_state_current_message_witness :
  let m := Scenario.start "hello" None in
  current_message (ChatState_new "hello") = "" /\
  original_message (ChatState_new "hello") = "hello" /\
  current_message (chat (snd (supervisor_node Scenario.friendly m))) = "hello"
  /\ original_message (chat (snd (supervisor_node Scenario.friendly m)))
     = "hello".
Proof.
  exact (fresh_state_current_message unit Scenario.friendly "hello"
           (Scenario.start "hello" None) (Some Scenario.greeting) tt
           eq_refl eq_refl).
Defined.

(** ** The Classifier *)

(** C6: when the gateway call of the Classifier raises, the node returns
    normally, the stored decision is [{intent: error, confidence: 0,
    needs_rewrite: false}] with the failure detail in its reasoning, the
    rest of the Turn State is untouched, and the router sends the turn to
    the Responder. *)
Theorem supervisor_gateway_failure Sigma (env : Collaborators Sigma)
    (m : Machine Sigma) e x :
  gateway_decision env
    (_create_simple_messages (memory m) (supervisor_system (prompts env))
       (str_or (current_message (chat m)) (original_message (chat m)))
       None true 6 None) (ext m) = (Raise e, x) ->
  exists m',
    supervisor_node env m = (Ok tt, m') /\
    chat m' =
      set_supervisor_decision
        (Some {| intent := error; confidence := 0; needs_rewrite := false;
                 reasoning := "Error in supervisor: " +++ exn_msg e |})
        (chat m) /\
    memory m' = memory m /\
    supervisor_router (chat m') = ResponseGenerator.
Proof.
  intros Hgw.
  unfold supervisor_node, structured_decision. monad_unfold. simpl.
  rewrite Hgw. simpl.
  eexists. split; [reflexivity|]. simpl. repeat split.
Qed.

Lemma supervisor_gateway_failure_witness :
  exists m',
    supervisor_node Scenario.deaf (Scenario.start "hello" (Some [])) = (Ok tt, m') /\
    chat m' =
      set_supervisor_decision
        (Some {| intent := error; confidence := 0; needs_rewrite := false;
                 reasoning := "Error in supervisor: model timed out" |})
        (ChatState_new "hello") /\
    memory m' = Some [] /\
    supervisor_router (chat m') = ResponseGenerator.
Proof.
  exact (supervisor_gateway_failure unit Scenario.deaf
           (Scenario.start "hello" (Some [])) Scenario.timeout tt eq_refl).
Defined.

(** ** The dispatch loop *)

Lemma dict_get_set_same {V} (k : string) (v : V) (d : dict V) :
  dict_get k (dict_set k v d) = Some v.
Proof.
  induction d as [|[k' v'] d IH]; simpl.
  - now rewrite String.eqb_refl.
  - destruct (String.eqb k k') eqn:E; simpl; rewrite ?E, ?String.eqb_refl; auto.
Qed.

Lemma gateway_calls_app (a b : list Event) :
  gateway_calls (a ++ b) = gateway_calls a ++ gateway_calls b.
Proof. apply filter_app. Qed.

Section Dispatch.

Variable Sigma : Type.
Variable env : Collaborators Sigma.

Lemma run_tool_call_contained tc msgs res (m : Machine Sigma) :
  exists ob res' m',
    run_tool_call env tc msgs res m = (Ok (msgs ++ [ob], res'), m') /\
    answers tc ob /\
    chat m' = chat m /\ memory m' = memory m /\
    gateway_calls (trace m') = gateway_calls (trace m).
Proof.
  unfold run_tool_call, answers, tool_run.
  destruct (find_tool (tc_name tc)) eqn:Hfind.
  - monad_unfold. simpl.
    destruct (tool_invoke env (tc_name tc) (tc_args tc) (ext m))
      as [[obs|e] x] eqn:Hinv; simpl;
      do 3 eexists; (split; [reflexivity|]); simpl;
      (split; [eexists; split; [reflexivity|discriminate]|]);
      rewrite gateway_calls_app; simpl; rewrite app_nil_r; auto.
  - monad_unfold. do 3 eexists. split; [reflexivity|].
    split; [eexists; split; [reflexivity|auto]|auto].
Qed.

Lemma run_tool_calls_contained tcs : forall msgs res (m : Machine Sigma),
  exists obs res' m',
    run_tool_calls env tcs msgs res m = (Ok (msgs ++ obs, res'), m') /\
    Forall2 answers tcs obs /\
    chat m' = chat m /\ memory m' = memory m /\
    gateway_calls (trace m') = gateway_calls (trace m).
Proof.
  induction tcs as [|tc tcs IH]; intros msgs res m; simpl.
  - exists [], res, m. rewrite app_nil_r. unfold ret. repeat split. constructor.
  - destruct (run_tool_call_contained tc msgs res m)
      as (ob & res1 & m1 & Hrun & Hans & Hc & Hm & Ht).
    unfold bind at 1. rewrite Hrun. simpl.
    destruct (IH (msgs ++ [ob]) res1 m1)
      as (obs & res2 & m2 & Hrun2 & Hans2 & Hc2 & Hm2 & Ht2).
    exists (ob :: obs), res2, m2. rewrite Hrun2.
    rewrite <- app_assoc. simpl. repeat split; try congruence.
    constructor; assumption.
Qed.

Lemma tool_loop_continues k msgs res (m : Machine Sigma) reply x :
  gateway_tools env msgs (ext m) = (Ok reply, x) ->
  ai_tool_calls reply <> [] ->
  tool_loop env (S k) msgs res m =
  bind
    (run_tool_calls env (ai_tool_calls reply)
       (msgs ++ [AIMessage (ai_content reply) (ai_tool_calls reply)]) res)
    (fun mr => tool_loop env k (fst mr) (snd mr))
    (after_tools_call m msgs x).
Proof.
  intros Hgw Hne. simpl. unfold llm_with_tools_invoke.
  unfold bind at 1. unfold bind at 1. unfold log at 1. unfold call at 1.
  simpl. rewrite Hgw.
  destruct (ai_tool_calls reply) as [|tc tcs]; [contradiction|]. reflexivity.
Qed.

(** Iterations that all received tool requests are what the loop runs
    through before it gives up. *)
Lemma tool_loop_after_iterations n :
  forall msgs res (m : Machine Sigma) final_msgs acc mn,
  after_iterations env n msgs res m = Some (final_msgs, acc, mn) ->
  tool_loop env n msgs res m = tool_loop env 0 final_msgs acc mn /\
  chat mn = chat m /\ memory mn = memory m /\
  (exists later, final_msgs = msgs ++ later) /\
  exists asked,
    gateway_calls (trace mn) = gateway_calls (trace m) ++ map CallTools asked /\
    length asked = n /\
    hd msgs asked = msgs.
Proof.
  induction n as [|n IH]; intros msgs res m final_msgs acc mn Hafter.
  - simpl in Hafter. injection Hafter as <- <- <-.
    split; [reflexivity|]. split; [reflexivity|]. split; [reflexivity|].
    split; [exists []; now rewrite app_nil_r|].
    exists []. simpl. rewrite app_nil_r. auto.
  - cbn [after_iterations] in Hafter.
    destruct (gateway_tools env msgs (ext m)) as [[reply|e] x] eqn:Hgw;
      [|discriminate].
    assert (Hne : ai_tool_calls reply <> []).
    { intros Hnil. rewrite Hnil in Hafter. discriminate. }
    rewrite (tool_loop_continues n msgs res m reply x Hgw Hne).
    destruct (run_tool_calls_contained (ai_tool_calls reply)
                (msgs ++ [AIMessage (ai_content reply) (ai_tool_calls reply)])
                res (after_tools_call m msgs x))
      as (obs & res1 & m1 & Hrun & _ & Hc & Hm & Ht).
    rewrite Hrun in Hafter.
    destruct (ai_tool_calls reply) as [|tc tcs] eqn:Hcalls; [contradiction|].
    destruct (IH _ _ _ _ _ _ Hafter)
      as (Hloop & Hchat & Hmem & [later Hlater] & asked & Htr & Hlen & Hhd).
    unfold bind. rewrite Hrun. cbn [fst snd].
    split; [exact Hloop|].
    split; [rewrite Hchat, Hc; reflexivity|].
    split; [rewrite Hmem, Hm; reflexivity|].
    split; [eexists; rewrite Hlater, <- !app_assoc; reflexivity|].
    exists (msgs :: asked). split; [|split; [simpl; congruence|reflexivity]].
    rewrite Htr, Ht. unfold after_tools_call. simpl.
    rewrite gateway_calls_app. simpl. rewrite <- app_assoc. reflexivity.
Qed.

(** C3: on a run of the Tool-Dispatcher in which each of the five iterations
    receives a reply with tool requests, the node makes exactly those five
    tool-bound gateway calls and then exactly one plain gateway call, six in
    all.  The plain call is made on the accumulated messages followed by
    the instruction to answer now, in the collaborators' state left by the
    fifth iteration; the text it returns is stored under
    [llm_final_response] after the results gathered so far.  (Should that
    call raise, the node stores its [error] entry instead.) *)
Theorem dispatch_loop_bound (m : Machine Sigma) final_msgs gathered m5 :
  let initial :=
    _create_simple_messages (memory m) (tool_selector (prompts env))
      (current_message (chat m)) None true 6 None in
  after_iterations env 5 initial [] m = Some (final_msgs, gathered, m5) ->
  let last_request :=
    final_msgs
      ++ [RoleDict "user"
            "Please provide your final answer based on the information gathered."]
  in
  let result := fst (gateway_plain env last_request (ext m5)) in
  tool_selector_node env m =
  (Ok tt,
   {| chat :=
        set_tool_results
          match result with
          | Ok (WithContent text) =>
              dict_set "llm_final_response" text gathered
          | Ok (NoContent repr) =>
              dict_set "llm_final_response" repr gathered
          | Raise e =>
              [("error",
                "I encountered an error while processing your request: "
                  +++ exn_msg e)]
          end (chat m);
      memory := memory m;
      trace := trace m5 ++ [CallPlain last_request result];
      ext := snd (gateway_plain env last_request (ext m5)) |}) /\
  (exists asked,
     gateway_calls (trace m5) = gateway_calls (trace m) ++ map CallTools asked /\
     length asked = 5%nat /\
     hd initial asked = initial) /\
  (exists later, final_msgs = initial ++ later) /\
  length (gateway_calls (trace (snd (tool_selector_node env m))))
  = (length (gateway_calls (trace m)) + 6)%nat /\
  match result with
  | Ok (WithContent text) =>
      dict_get "llm_final_response"
        (tool_results (chat (snd (tool_selector_node env m)))) = Some text
  | Ok (NoContent repr) =>
      dict_get "llm_final_response"
        (tool_results (chat (snd (tool_selector_node env m)))) = Some repr
  | Raise _ =>
      dict_get "llm_final_response"
        (tool_results (chat (snd (tool_selector_node env m)))) = None
  end.
Proof.
  intros initial Hafter last_request result.
  destruct (tool_loop_after_iterations 5 initial [] m final_msgs gathered m5
              Hafter)
    as (Hloop & Hchat & Hmem & Hlater & asked & Htr & Hlen & Hhd).
  assert (Hrun :
    tool_selector_node env m =
    (Ok tt,
     {| chat :=
          set_tool_results
            match result with
            | Ok (WithContent text) =>
                dict_set "llm_final_response" text gathered
            | Ok (NoContent repr) =>
                dict_set "llm_final_response" repr gathered
            | Raise e =>
                [("error",
                  "I encountered an error while processing your request: "
                    +++ exn_msg e)]
            end (chat m);
        memory := memory m;
        trace := trace m5 ++ [CallPlain last_request result];
        ext := snd (gateway_plain env last_request (ext m5)) |})).
  { unfold tool_selector_node.
    unfold try_except, bind at 1. unfold get_chat at 1. cbv beta iota.
    unfold bind at 1. unfold get_memory at 1. cbv beta iota.
    fold initial. unfold max_iterations_tools. rewrite Hloop.
    cbn [tool_loop]. unfold llm_invoke, final_instruction. monad_unfold.
    cbn [chat memory trace ext]. fold last_request. unfold result.
    destruct (gateway_plain env last_request (ext m5)) as [[[text|repr]|e] x];
      cbn [fst snd reply_text chat memory trace ext];
      rewrite Hchat, Hmem; reflexivity. }
  split; [exact Hrun|].
  split; [exists asked; auto|].
  split; [exact Hlater|].
  rewrite Hrun. cbn [snd trace chat tool_results set_tool_results].
  split.
  - rewrite gateway_calls_app, Htr, !length_app, length_map, Hlen.
    simpl. lia.
  - destruct result as [[text|repr]|e];
      [apply dict_get_set_same|apply dict_get_set_same|reflexivity].
Qed.

(** C7: inside the dispatch loop a request for an unknown tool appends the
    observation "Tool {name} not found", and a tool whose execution raises
    appends "Error executing {name}: {detail}", both under the request's
    correlation id and without raising or recording a result; whatever the
    requested tools do, every request gets one observation under its own
    id, in order, and the loop goes on to its next iteration. *)
Theorem tool_failure_contained (tc : ToolCall) msgs res (m : Machine Sigma) :
  (find_tool (tc_name tc) = false ->
   run_tool_call env tc msgs res m =
   (Ok (msgs ++ [ToolMessage ("Tool " +++ tc_name tc +++ " not found")
                   (tc_id tc)], res), m)) /\
  (forall e x,
     find_tool (tc_name tc) = true ->
     tool_invoke env (tc_name tc) (tc_args tc) (ext m) = (Raise e, x) ->
     exists m',
       run_tool_call env tc msgs res m =
       (Ok (msgs ++ [ToolMessage
                       ("Error executing " +++ tc_name tc +++ ": "
                          +++ exn_msg e) (tc_id tc)], res), m') /\
       chat m' = chat m /\ memory m' = memory m) /\
  (forall k reply x,
     gateway_tools env msgs (ext m) = (Ok reply, x) ->
     ai_tool_calls reply <> [] ->
     exists obs res' m',
       run_tool_calls env (ai_tool_calls reply)
         (msgs ++ [AIMessage (ai_content reply) (ai_tool_calls reply)]) res
         (after_tools_call m msgs x)
       = (Ok ((msgs ++ [AIMessage (ai_content reply) (ai_tool_calls reply)])
                ++ obs, res'), m') /\
       Forall2 answers (ai_tool_calls reply) obs /\
       tool_loop env (S k) msgs res m
       = tool_loop env k
           ((msgs ++ [AIMessage (ai_content reply) (ai_tool_calls reply)])
              ++ obs) res' m').
Proof.
  split; [|split].
  - intros Hfind. unfold run_tool_call. rewrite Hfind. reflexivity.
  - intros e x Hfind Hinv. unfold run_tool_call, tool_run. rewrite Hfind.
    monad_unfold. simpl. rewrite Hinv. simpl.
    eexists. split; [reflexivity|]. split; reflexivity.
  - intros k reply x Hgw Hne.
    destruct (run_tool_calls_contained (ai_tool_calls reply)
                (msgs ++ [AIMessage (ai_content reply) (ai_tool_calls reply)])
                res (after_tools_call m msgs x))
      as (obs & res' & m' & Hrun & Hans & _).
    exists obs, res', m'. split; [exact Hrun|]. split; [exact Hans|].
    rewrite (tool_loop_continues k msgs res m reply x Hgw Hne).
    unfold bind. rewrite Hrun. reflexivity.
Qed.

End Dispatch.

Lemma dispatch_loop_bound_witness :
  let m := Scenario.start "show machines" (Some []) in
  let run :=
    after_iterations Scenario.insatiable 5
      [SystemMessage "use the tools"; HumanMessage ""] [] m in
  let final_msgs := match run with Some (a, _, _) => a | None => [] end in
  let gathered := match run with Some (_, b, _) => b | None => [] end in
  let m5 := match run with Some (_, _, c) => c | None => m end in
  run = Some (final_msgs, gathered, m5) /\
  gathered = [("get_data", "3 assets")] /\
  length final_msgs = 22%nat /\
  tool_selector_node Scenario.insatiable m =
  (Ok tt,
   {| chat :=
        set_tool_results
          [("get_data", "3 assets");
           ("llm_final_response", "Three assets found.")]
          (ChatState_new "show machines");
      memory := Some [];
      trace := trace m5 ++
        [CallPlain
           (final_msgs
              ++ [RoleDict "user"
                    "Please provide your final answer based on the information gathered."])
           (Ok (WithContent "Three assets found."))];
      ext := tt |}) /\
  length (gateway_calls (trace (snd (tool_selector_node Scenario.insatiable m))))
  = 6%nat.
Proof.
  intros m run final_msgs gathered m5.
  assert (H : run = Some (final_msgs, gathered, m5))
    by (vm_compute; reflexivity).
  split; [exact H|].
  split; [vm_compute; reflexivity|].
  split; [vm_compute; reflexivity|].
  pose proof (dispatch_loop_bound unit Scenario.insatiable m final_msgs
                gathered m5 H) as T.
  split; [exact (proj1 T)|exact (proj1 (proj2 (proj2 (proj2 T))))].
Defined.

Lemma tool_failure_contained_witness :
  let m := Scenario.start "show machines" (Some []) in
  let asked := [Scenario.ask_assets; Scenario.ask_weather; Scenario.ask_stats] in
  run_tool_call Scenario.insatiable Scenario.ask_weather [] [] m
    = (Ok ([ToolMessage "Tool get_weather not found" "call-2"], []), m) /\
  (exists m',
     run_tool_call Scenario.insatiable Scenario.ask_stats [] [] m
       = (Ok ([ToolMessage "Error executing get_statistics: asset_key missing"
                 "call-3"], []), m') /\
     chat m' = chat m /\ memory m' = memory m) /\
  (exists obs res' m',
     run_tool_calls Scenario.insatiable asked ([] ++ [AIMessage "" asked]) []
       (after_tools_call m [] tt)
     = (Ok (([] ++ [AIMessage "" asked]) ++ obs, res'), m') /\
     Forall2 answers asked obs /\
     tool_loop Scenario.insatiable 5 [] [] m
     = tool_loop Scenario.insatiable 4 (([] ++ [AIMessage "" asked]) ++ obs)
         res' m').
Proof.
  intros m asked.
  pose proof (tool_failure_contained unit Scenario.insatiable
                Scenario.ask_weather [] [] m) as Hmissing.
  pose proof (tool_failure_contained unit Scenario.insatiable
                Scenario.ask_stats [] [] m) as Hfails.
  split; [exact (proj1 Hmissing eq_refl)|].
  split.
  - exact (proj1 (proj2 Hfails)
             (mkExn "ValidationError" "asset_key missing") tt eq_refl eq_refl).
  - refine (proj2 (proj2 Hfails) 4%nat (mkAIReply "" asked) tt eq_refl _).
    discriminate.
Defined.

(** ** Frame and totality of the nodes *)

Section Frames.

Variable Sigma : Type.
Variable env : Collaborators Sigma.

Lemma keeps_memory_ret {A} (a : A) : keeps_memory (@ret Sigma A a).
Proof. intros m. reflexivity. Qed.

Lemma keeps_memory_raise {A} e : keeps_memory (@raise Sigma A e).
Proof. intros m. reflexivity. Qed.

Lemma keeps_memory_bind {A B} (c : M Sigma A) (k : A -> M Sigma B) :
  keeps_memory c -> (forall a, keeps_memory (k a)) -> keeps_memory (bind c k).
Proof.
  intros Hc Hk m. unfold bind. specialize (Hc m).
  destruct (c m) as [[a|e] m1]; simpl in *.
  - rewrite Hk. exact Hc.
  - exact Hc.
Qed.

Lemma keeps_memory_try {A} (c : M Sigma A) (h : Exn -> M Sigma A) :
  keeps_memory c -> (forall e, keeps_memory (h e)) ->
  keeps_memory (try_except c h).
Proof.
  intros Hc Hh m. unfold try_except. specialize (Hc m).
  destruct (c m) as [[a|e] m1]; simpl in *.
  - exact Hc.
  - rewrite Hh. exact Hc.
Qed.

Lemma keeps_memory_get_chat : keeps_memory (@get_chat Sigma).
Proof. intros m. reflexivity. Qed.

Lemma keeps_memory_get_memory : keeps_memory (@get_memory Sigma).
Proof. intros m. reflexivity. Qed.

Lemma keeps_memory_update_chat f : keeps_memory (@update_chat Sigma f).
Proof. intros m. reflexivity. Qed.

Lemma keeps_memory_log ev : keeps_memory (@log Sigma ev).
Proof. intros m. reflexivity. Qed.

Lemma keeps_memory_call {A} (f : Sigma -> Outcome A * Sigma) :
  keeps_memory (call f).
Proof. intros m. unfold call. destruct (f (ext m)). reflexivity. Qed.

Lemma keeps_memory_attribute {A B} attr (f : A -> B) o :
  keeps_memory (@attribute Sigma A B attr f o).
Proof.
  destruct o; [apply keeps_memory_ret|apply keeps_memory_raise].
Qed.

Lemma keeps_memory_llm_invoke msgs : keeps_memory (llm_invoke env msgs).
Proof.
  intros m. unfold llm_invoke, call, log.
  destruct (gateway_plain env msgs (ext m)). reflexivity.
Qed.

Create HintDb frame.

#[local] Hint Resolve keeps_memory_ret keeps_memory_raise keeps_memory_get_chat
  keeps_memory_get_memory keeps_memory_update_chat keeps_memory_log
  keeps_memory_call keeps_memory_attribute keeps_memory_llm_invoke : frame.

(** Splits a sequence of monadic steps into its steps. *)
Ltac frame :=
  repeat first
    [ apply keeps_memory_try; [|intros ?]
    | apply keeps_memory_bind; [|intros ?]
    | solve [auto with frame] ].

Lemma keeps_memory_supervisor : keeps_memory (supervisor_node env).
Proof.
  unfold supervisor_node, structured_decision. frame.
Qed.

Lemma keeps_memory_rewriter : keeps_memory (rewriter_node env).
Proof.
  unfold rewriter_node, structured_rewrite. frame.
Qed.

Lemma keeps_memory_run_tool_calls tcs : forall msgs res,
  keeps_memory (run_tool_calls env tcs msgs res).
Proof.
  induction tcs as [|tc tcs IH]; intros msgs res; simpl.
  - auto with frame.
  - apply keeps_memory_bind; [|intros a; apply IH].
    unfold run_tool_call, tool_run.
    destruct (find_tool (tc_name tc)); frame.
Qed.

Lemma keeps_memory_tool_loop n : forall msgs res,
  keeps_memory (tool_loop env n msgs res).
Proof.
  induction n as [|n IH]; intros msgs res; simpl.
  - frame.
  - unfold llm_with_tools_invoke.
    apply keeps_memory_bind; [frame|]. intros reply.
    destruct (ai_tool_calls reply) as [|tc tcs]; [frame|].
    apply keeps_memory_bind;
      [apply (keeps_memory_run_tool_calls (tc :: tcs))|].
    intros a. apply IH.
Qed.

Lemma keeps_memory_tool_selector : keeps_memory (tool_selector_node env).
Proof.
  unfold tool_selector_node.
  apply keeps_memory_try; [|intros e; frame].
  do 2 (apply keeps_memory_bind; [frame|intros ?]).
  apply keeps_memory_tool_loop.
Qed.

(** A [try] whose handler always returns makes a node that always returns. *)
Lemma never_raises_try {A} (c : M Sigma A) (h : Exn -> M Sigma A) :
  (forall e, never_raises (h e)) -> never_raises (try_except c h).
Proof.
  intros Hh m. unfold try_except.
  destruct (c m) as [[a|e] m1]; [do 2 eexists; reflexivity|apply Hh].
Qed.

Lemma never_raises_update_chat f : never_raises (@update_chat Sigma f).
Proof. intros m. do 2 eexists. reflexivity. Qed.

Lemma never_raises_run_node n : never_raises (run_node env n).
Proof.
  destruct n; simpl.
  - apply never_raises_try. intros e. apply never_raises_update_chat.
  - apply never_raises_try. intros e m. do 2 eexists. reflexivity.
  - apply never_raises_try. intros e. apply never_raises_update_chat.
  - apply never_raises_try. intros e m. do 2 eexists. reflexivity.
  - intros m. do 2 eexists. reflexivity.
Qed.

End Frames.

(** ** The Responder *)

Lemma str_truthy_append (a b : string) :
  str_truthy (a +++ b) = str_truthy a || str_truthy b.
Proof. destruct a; simpl; [reflexivity|reflexivity]. Qed.

Lemma tool_summary_truthy (name result : string) (rest : dict string) :
  str_truthy (_create_tool_summary ((name, result) :: rest)) = true.
Proof.
  unfold _create_tool_summary. simpl map.
  destruct (map _ rest) as [|s l]; simpl str_join;
    rewrite !str_truthy_append; simpl; apply orb_true_r.
Qed.

Section Responder.

Variable Sigma : Type.
Variable env : Collaborators Sigma.

(** The messages of the synthesis call, spelled out. *)
Lemma response_messages_spelled_out (mem : option (list Message))
    (state : ChatState) :
  _create_response_messages env mem state =
  [SystemMessage (response_system (prompts env))]
    ++ match mem with
       | Some history => skipn (length history - 2) history
       | None => []
       end
    ++ match tool_results state with
       | [] => []
       | results =>
           [AIMessage
              ("Context: "
                 +++ str_join "; "
                       (map (fun entry => fst entry +++ ": " +++ snd entry)
                          results)) []]
       end
    ++ [HumanMessage (original_message state)].
Proof.
  unfold _create_response_messages, _create_simple_messages.
  assert (Hmap : forall d : dict string,
             map (fun '(tool_name, result) => tool_name +++ ": " +++ result) d
             = map (fun entry => fst entry +++ ": " +++ snd entry) d).
  { intros d. apply map_ext. intros [k v]. reflexivity. }
  destruct mem as [[|h hs]|]; destruct (tool_results state) as [|[k v] rest];
    rewrite ?tool_summary_truthy; unfold _create_tool_summary, py_last;
    rewrite ?Hmap; rewrite <- ?app_assoc; reflexivity.
Qed.

(** C5: the Responder takes its answer from [llm_final_response] when
    [tool_results] has that key; else from [error] when it has that key;
    else it asks the gateway with the response prompt, the last two history
    entries, the tool results rendered as "{name}: {result}" joined by "; "
    (when there are any) and the original message.  The content of the reply
    is the answer; a reply without content gives one fixed apology, a failed
    call another. *)
Theorem responder_answer_precedence (m : Machine Sigma) :
  let state := chat m in
  let m' := snd (response_generator_node env m) in
  match dict_get "llm_final_response" (tool_results state) with
  | Some answer =>
      final_response (chat m') = answer /\ trace m' = trace m
  | None =>
      match dict_get "error" (tool_results state) with
      | Some err => final_response (chat m') = err /\ trace m' = trace m
      | None =>
          let history :=
            match memory m with
            | Some h => skipn (length h - 2) h
            | None => []
            end in
          let context :=
            match tool_results state with
            | [] => []
            | results =>
                [AIMessage
                   ("Context: "
                      +++ str_join "; "
                            (map (fun entry => fst entry +++ ": " +++ snd entry)
                               results)) []]
            end in
          let messages :=
            [SystemMessage (response_system (prompts env))]
              ++ history ++ context
              ++ [HumanMessage (original_message state)] in
          let result := fst (gateway_plain env messages (ext m)) in
          trace m' = trace m ++ [CallPlain messages result] /\
          final_response (chat m') =
            match result with
            | Ok (WithContent c) => c
            | Ok (NoContent _) => apology_format
            | Raise _ => apology_error
            end
      end
  end.
Proof.
  cbv zeta.
  rewrite <- (response_messages_spelled_out (memory m) (chat m)).
  unfold response_generator_node, llm_invoke. monad_unfold. simpl.
  destruct (dict_get "llm_final_response" (tool_results (chat m))) as [answer|].
  { destruct (memory m); simpl; split; reflexivity. }
  destruct (dict_get "error" (tool_results (chat m))) as [err|].
  { destruct (memory m); simpl; split; reflexivity. }
  destruct (gateway_plain env
              (_create_response_messages env (memory m) (chat m)) (ext m))
    as [[[c|r]|e] x]; simpl;
    destruct (memory m); simpl; split; reflexivity.
Qed.

(** What the Responder does to the metadata and to the history, by the
    outcome of its answer selection. *)
Lemma responder_effects (m : Machine Sigma) :
  let m' := snd (response_generator_node env m) in
  fst (response_generator_node env m) = Ok tt /\
  match synthesis_outcome env m with
  | Some (Raise e) =>
      metadata (chat m') = [("error", MStr (exn_msg e))] /\
      final_response (chat m') = apology_error /\
      memory m' = memory m
  | _ =>
      metadata (chat m') = turn_metadata (chat m') /\
      memory m' =
        option_map
          (fun h => h ++ [HumanMessage (current_message (chat m));
                          AIMessage (final_response (chat m')) []])
          (memory m)
  end /\
  current_message (chat m') = current_message (chat m).
Proof.
  cbv zeta. unfold synthesis_outcome.
  unfold response_generator_node, llm_invoke. monad_unfold. simpl.
  destruct (dict_get "llm_final_response" (tool_results (chat m))) as [answer|].
  { destruct (memory m); simpl; rewrite <- ?app_assoc; repeat split. }
  destruct (dict_get "error" (tool_results (chat m))) as [err|].
  { destruct (memory m); simpl; rewrite <- ?app_assoc; repeat split. }
  destruct (gateway_plain env
              (_create_response_messages env (memory m) (chat m)) (ext m))
    as [[[c|r]|e] x]; simpl;
    destruct (memory m); simpl; rewrite <- ?app_assoc; repeat split.
Qed.

Lemma turn_metadata_complete (state : ChatState) :
  metadata_complete (turn_metadata state) = true.
Proof. reflexivity. Qed.

(** C8, amended: with a history configured, when the Responder's answer
    selection does not raise the node appends exactly one user message and
    then exactly one assistant message holding the final response, and the
    user message holds the Turn State's [current_message] whenever the
    Classifier has set it (it is not empty, or the original message is
    empty too); when the synthesis call raises, the answer is the fixed
    apology and the history is left as it was; the Classifier, the Rewriter
    and the Tool-Dispatcher never change the history. *)
Theorem history_updated_by_responder_only (m : Machine Sigma) :
  let m' := snd (response_generator_node env m) in
  match synthesis_outcome env m with
  | Some (Raise _) =>
      memory m' = memory m /\
      final_response (chat m')
      = "I'm sorry, I encountered an error processing your request. Please try again."
  | _ =>
      exists user,
        memory m' =
          option_map
            (fun h => h ++ [HumanMessage user;
                            AIMessage (final_response (chat m')) []])
            (memory m) /\
        (current_message (chat m) <> "" \/ original_message (chat m) = "" ->
         user = current_message (chat m))
  end /\
  memory (snd (supervisor_node env m)) = memory m /\
  memory (snd (rewriter_node env m)) = memory m /\
  memory (snd (tool_selector_node env m)) = memory m.
Proof.
  cbv zeta. split.
  - pose proof (responder_effects m) as H. cbv zeta in H.
    destruct H as (_ & H & _).
    destruct (synthesis_outcome env m) as [[r|e]|].
    + exists (current_message (chat m)). split; [apply H|auto].
    + destruct H as (_ & Hfinal & Hmem). split; [exact Hmem|exact Hfinal].
    + exists (current_message (chat m)). split; [apply H|auto].
  - split; [apply keeps_memory_supervisor|].
    split; [apply keeps_memory_rewriter|apply keeps_memory_tool_selector].
Qed.

End Responder.

(** C8, as stated, fails twice.  When the synthesis call raises, the
    Responder finishes with its apology, yet nothing was appended to the
    history.  And after a rewrite the user message appended is the rewritten
    text, not the message the user sent. *)
Lemma responder_may_skip_history :
  (let m := Scenario.start "hello" (Some [HumanMessage "hi"]) in
   let m' := snd (response_generator_node Scenario.mute m) in
   final_response (chat m') = apology_error /\
   memory m' = Some [HumanMessage "hi"] /\
   ~ (exists user assistant,
        memory m' = Some ([HumanMessage "hi"]
                            ++ [HumanMessage user; AIMessage assistant []]))) /\
  (let turn :=
     process_message Cases.helpful Scenario.ready "check the sensor"
       (Cases.begin "" (Some [])) in
   visits ResponseGenerator (trace (snd turn)) = 1%nat /\
   memory (snd turn) =
     Some [HumanMessage
             "show me statistics and any anomalies in the SENSOR-001 data";
           AIMessage "There are 3 assets." []] /\
   memory (snd turn) <>
     Some [HumanMessage "check the sensor";
           AIMessage "There are 3 assets." []]).
Proof.
  split.
  - cbv zeta. split; [reflexivity|]. split; [reflexivity|].
    intros (user & assistant & H). discriminate H.
  - cbv zeta. split; [reflexivity|]. split; [reflexivity|].
    vm_compute. discriminate.
Qed.

Lemma history_updated_by_responder_only_witness :
  let m :=
    {| chat := set_current_message "hello" (ChatState_new "hello");
       memory := Some [HumanMessage "hi"]; trace := []; ext := tt |} in
  let m' := snd (response_generator_node Scenario.friendly m) in
  exists user,
    memory m' =
      Some ([HumanMessage "hi"]
              ++ [HumanMessage user; AIMessage "Hello! How can I help?" []]) /\
    user = "hello".
Proof.
  intros m m'.
  destruct (proj1 (history_updated_by_responder_only unit Scenario.friendly m))
    as [user [Hmem Huser]].
  exists user. split; [exact Hmem|].
  apply Huser. left. discriminate.
Defined.

(** ** The graph and the agent *)

Lemma router_needs_decision (state : ChatState) d :
  supervisor_decision state = Some d -> supervisor_router state <> END.
Proof.
  intros Hd. unfold supervisor_router. rewrite Hd.
  destruct (needs_rewrite d && _); [discriminate|].
  destruct (Intent_eqb (intent d) tool_required); discriminate.
Qed.

Section Graph.

Variable Sigma : Type.
Variable env : Collaborators Sigma.

Lemma supervisor_always_decides (m : Machine Sigma) :
  exists d, supervisor_decision (chat (snd (supervisor_node env m))) = Some d.
Proof.
  unfold supervisor_node, structured_decision. monad_unfold. simpl.
  destruct (gateway_decision env _ (ext m)) as [[[d|]|e] x]; simpl;
    eexists; reflexivity.
Qed.

Lemma run_graph_END steps (m : Machine Sigma) :
  run_graph env steps END m = (Ok tt, m).
Proof. destruct steps; reflexivity. Qed.

Lemma run_graph_step steps n (m : Machine Sigma) :
  n <> END ->
  run_graph env (S steps) n m =
  let m1 := snd (run_node env n (entered m n)) in
  run_graph env steps (successor n (chat m1)) m1.
Proof.
  intros Hn.
  destruct (never_raises_run_node Sigma env n (entered m n)) as (a & m1 & H).
  cbv zeta. rewrite H. simpl snd. unfold entered in H.
  destruct n; try contradiction; cbn [run_graph];
    unfold bind, log, get_chat; rewrite H; reflexivity.
Qed.

(** A run that ends without raising went through the Responder; a run that
    raises ran out of super-steps. *)
Lemma run_graph_outcome steps : forall n (m : Machine Sigma),
  n <> END ->
  match run_graph env steps n m with
  | (Ok _, m') =>
      metadata_complete (metadata (chat m')) = true \/
      exists e, metadata (chat m') = [("error", MStr e)]
  | (Raise e, _) => e = GraphRecursionError
  end.
Proof.
  induction steps as [|steps IH]; intros n m Hn.
  - destruct n; try contradiction; reflexivity.
  - rewrite (run_graph_step steps n m Hn). cbv zeta.
    destruct n; try contradiction; simpl successor.
    + destruct (supervisor_always_decides (entered m Supervisor)) as [d Hd].
      apply IH. simpl run_node. exact (router_needs_decision _ d Hd).
    + apply IH. discriminate.
    + apply IH. discriminate.
    + rewrite run_graph_END. simpl run_node.
      pose proof (responder_effects Sigma env (entered m ResponseGenerator))
        as Heff. cbv zeta in Heff. destruct Heff as (_ & Heff & _).
      destruct (synthesis_outcome env (entered m ResponseGenerator))
        as [[r|e]|].
      * left. destruct Heff as [Hmd _]. rewrite Hmd. reflexivity.
      * right. destruct Heff as [Hmd _]. eexists. exact Hmd.
      * left. destruct Heff as [Hmd _]. rewrite Hmd. reflexivity.
Qed.

End Graph.

Lemma visits_app n (a b : list Event) :
  visits n (a ++ b) = (visits n a + visits n b)%nat.
Proof. unfold visits. rewrite filter_app, length_app. reflexivity. Qed.

(** [process_message] on an initialized agent, by the outcome of the run. *)
Lemma process_message_initialized Sigma (env : Collaborators Sigma)
    agent message (m : Machine Sigma) :
  is_initialized agent = true ->
  process_message env agent message m =
  match run_graph env (recursion_limit env) Supervisor
          {| chat := ChatState_new message; memory := memory m;
             trace := trace m; ext := ext m |} with
  | (Ok _, m1) =>
      (Ok {| text := final_response (chat m1);
             visualizations := Some [];
             data := None;
             resp_metadata := metadata (chat m1) |}, m1)
  | (Raise e, m1) =>
      (Ok {| text := apology_error;
             visualizations := None;
             data := None;
             resp_metadata :=
               [("error", MStr (exn_msg e));
                ("type", MStr "graph_execution_error")] |}, m1)
  end.
Proof.
  intros Hinit. unfold process_message. rewrite Hinit. cbn [negb].
  unfold try_except, compiled_graph_invoke, bind, update_chat, get_chat, ret.
  destruct (run_graph env (recursion_limit env) Supervisor _) as [[a|e] m1];
    reflexivity.
Qed.

(** C4, as stated, fails: when the Responder's synthesis call raises, the
    result's metadata holds the key [error] alone; when the graph run itself
    raises, it holds [error] and [type]. *)
Lemma metadata_keys_may_be_missing :
  match fst (process_message Scenario.mute Scenario.ready "hello"
               (Scenario.start "" (Some []))) with
  | Ok r =>
      resp_metadata r = [("error", MStr "model timed out")] /\
      metadata_complete (resp_metadata r) = false
  | Raise _ => False
  end /\
  match fst (process_message Scenario.stuck Scenario.ready "check the sensor"
               (Scenario.start "" (Some []))) with
  | Ok r =>
      dict_keys (resp_metadata r) = ["error"; "type"] /\
      metadata_complete (resp_metadata r) = false
  | Raise _ => False
  end.
Proof. vm_compute. repeat split. Qed.

(** C4, amended: the Responder stores all five keys [intent], [confidence],
    [tools_used], [iterations] and [was_rewritten] unless its synthesis call
    raised, in which case the metadata is [{error: detail}]; and every turn
    of an initialized agent returns a result whose metadata either has all
    five keys, or is such an [{error: detail}], or is the [{error, type}]
    pair of a failed graph run. *)
Theorem metadata_keys_present Sigma (env : Collaborators Sigma)
    (m : Machine Sigma) (message : string) :
  (let m' := snd (response_generator_node env m) in
   match synthesis_outcome env m with
   | Some (Raise e) => metadata (chat m') = [("error", MStr (exn_msg e))]
   | _ => metadata_complete (metadata (chat m')) = true
   end) /\
  exists r m',
    process_message env {| is_initialized := true |} message m = (Ok r, m') /\
    (metadata_complete (resp_metadata r) = true \/
     (exists e, resp_metadata r = [("error", MStr e)]) \/
     resp_metadata r =
       [("error", MStr (exn_msg GraphRecursionError));
        ("type", MStr "graph_execution_error")]).
Proof.
  split.
  - pose proof (responder_effects Sigma env m) as Heff. cbv zeta in *.
    destruct Heff as (_ & Heff & _).
    destruct (synthesis_outcome env m) as [[r|e]|];
      destruct Heff as [Hmd _]; rewrite Hmd; reflexivity.
  - rewrite (process_message_initialized Sigma env
               {| is_initialized := true |} message m eq_refl).
    pose proof (run_graph_outcome Sigma env (recursion_limit env) Supervisor
                  {| chat := ChatState_new message; memory := memory m;
                     trace := trace m; ext := ext m |}) as Hrun.
    destruct (run_graph env (recursion_limit env) Supervisor _)
      as [[a|e] m1].
    + do 2 eexists. split; [reflexivity|]. simpl.
      destruct Hrun as [H|H];
        [discriminate|left; exact H|right; left; exact H].
    + do 2 eexists. split; [reflexivity|]. simpl.
      right. right. rewrite Hrun; [reflexivity|discriminate].
Qed.

(** C10: called on an agent whose [initialize] has not completed,
    [process_message] raises a [RuntimeError] and leaves everything as it
    was; called on an initialized agent it always returns a result: the
    final state's answer and metadata when the graph run returned, and the
    fixed apology with metadata [{error: detail, type:
    graph_execution_error}] when the graph run raised. *)
Theorem process_message_contract Sigma (env : Collaborators Sigma)
    (agent : GraphChatAgent) (message : string) (m : Machine Sigma) :
  (is_initialized agent = false ->
   process_message env agent message m = (Raise not_initialized_error, m)) /\
  (is_initialized agent = true ->
   exists r m',
     process_message env agent message m = (Ok r, m') /\
     match fst (compiled_graph_invoke env (ChatState_new message) m) with
     | Ok final =>
         r = {| text := final_response final;
                visualizations := Some [];
                data := None;
                resp_metadata := metadata final |}
     | Raise e =>
         r = {| text := apology_error;
                visualizations := None;
                data := None;
                resp_metadata :=
                  [("error", MStr (exn_msg e));
                   ("type", MStr "graph_execution_error")] |}
     end) /\
  exn_type not_initialized_error = "RuntimeError" /\
  is_initialized GraphChatAgent_init = false /\
  (forall setup a,
     is_initialized (snd (initialize setup a)) =
     match setup with Ok _ => true | Raise _ => is_initialized a end).
Proof.
  split; [|split; [|split; [|split]]].
  - intros Hinit. unfold process_message. rewrite Hinit. reflexivity.
  - intros Hinit.
    rewrite (process_message_initialized Sigma env agent message m Hinit).
    unfold compiled_graph_invoke, bind, update_chat, get_chat.
    destruct (run_graph env (recursion_limit env) Supervisor _)
      as [[a|e] m1]; do 2 eexists; split; reflexivity.
  - reflexivity.
  - reflexivity.
  - intros [u|e] a; reflexivity.
Qed.

Lemma process_message_contract_witness :
  let m := Scenario.start "" (Some []) in
  process_message Scenario.stuck GraphChatAgent_init "check the sensor" m
    = (Raise not_initialized_error, m) /\
  exists r m',
    process_message Scenario.stuck Scenario.ready "check the sensor" m
      = (Ok r, m') /\
    r = {| text := apology_error;
           visualizations := None;
           data := None;
           resp_metadata :=
             [("error", MStr (exn_msg GraphRecursionError));
              ("type", MStr "graph_execution_error")] |}.
Proof.
  cbv zeta. split.
  - exact (proj1 (process_message_contract unit Scenario.stuck
                    GraphChatAgent_init "check the sensor"
                    (Scenario.start "" (Some []))) eq_refl).
  - exact (proj1 (proj2 (process_message_contract unit Scenario.stuck
                           Scenario.ready "check the sensor"
                           (Scenario.start "" (Some [])))) eq_refl).
Defined.

(** ** The Classifier/Rewriter cycle *)

Lemma visits_entered {Sigma} n n' (m : Machine Sigma) :
  visits n (trace (entered m n'))
  = (visits n (trace m) + if Node_eqb n n' then 1 else 0)%nat.
Proof.
  unfold entered. simpl trace. rewrite visits_app. unfold visits at 2.
  simpl. destruct (Node_eqb n n'); reflexivity.
Qed.

Lemma stuck_supervisor (m : Machine unit) :
  rewriter_response (chat m) = None ->
  let m1 := snd (supervisor_node Scenario.stuck m) in
  supervisor_router (chat m1) = Rewriter /\
  rewriter_response (chat m1) = None /\
  visits Rewriter (trace m1) = visits Rewriter (trace m).
Proof.
  intros Hr. unfold supervisor_node, structured_decision. monad_unfold.
  simpl. unfold supervisor_router. simpl. rewrite Hr.
  repeat split. rewrite visits_app. unfold visits. simpl. lia.
Qed.

Lemma stuck_rewriter (m : Machine unit) :
  rewriter_response (chat m) = None ->
  let m2 := snd (rewriter_node Scenario.stuck m) in
  rewriter_response (chat m2) = None /\
  visits Rewriter (trace m2) = visits Rewriter (trace m).
Proof.
  intros Hr. unfold rewriter_node, structured_rewrite. monad_unfold.
  simpl. split; [exact Hr|]. rewrite visits_app. unfold visits. simpl. lia.
Qed.

Lemma stuck_cycle n : forall m : Machine unit,
  rewriter_response (chat m) = None ->
  visits Rewriter
    (trace (snd (run_graph Scenario.stuck (2 * n) Supervisor m)))
  = (visits Rewriter (trace m) + n)%nat.
Proof.
  induction n as [|n IH]; intros m Hr.
  - simpl. lia.
  - replace (2 * S n)%nat with (S (S (2 * n))) by lia.
    rewrite run_graph_step by discriminate. cbv zeta.
    unfold successor, run_node.
    destruct (stuck_supervisor (entered m Supervisor) Hr) as (Hroute & Hr1 & Hv1).
    rewrite Hroute.
    rewrite run_graph_step by discriminate. cbv zeta.
    unfold successor, run_node.
    set (m1 := snd (supervisor_node Scenario.stuck (entered m Supervisor))) in *.
    destruct (stuck_rewriter (entered m1 Rewriter) Hr1) as (Hr2 & Hv2).
    rewrite IH by exact Hr2.
    rewrite Hv2, visits_entered, Hv1, visits_entered. simpl. lia.
Qed.

(** C1, on the code: with a Classifier that keeps asking for a rewrite and
    a Rewriter whose gateway call keeps failing, the failure path leaves
    the rewrite result empty, the router selects the Rewriter again, and
    the Rewriter runs once per two super-steps for as long as the runner
    allows: [n] times in [2 * n] steps, twelve times under a limit of 25,
    after which the turn ends with the graph-execution apology. *)
Theorem rewriter_failure_cycles :
  (forall n message mem,
     visits Rewriter
       (trace (snd (run_graph Scenario.stuck (2 * n) Supervisor
                      (Scenario.start message mem)))) = n) /\
  let m := Scenario.start "check the sensor" (Some []) in
  rewriter_response (chat (snd (rewriter_node Scenario.stuck m))) = None /\
  let r := process_message Scenario.stuck Scenario.ready "check the sensor" m in
  visits Rewriter (trace (snd r)) = 12%nat /\
  visits Supervisor (trace (snd r)) = 13%nat /\
  rewriter_response (chat (snd r)) = None /\
  fst r = Ok {| text := apology_error;
                visualizations := None;
                data := None;
                resp_metadata :=
                  [("error", MStr (exn_msg GraphRecursionError));
                   ("type", MStr "graph_execution_error")] |}.
Proof.
  split.
  - intros n message mem.
    rewrite (stuck_cycle n (Scenario.start message mem) eq_refl). reflexivity.
  - vm_compute. repeat split.
Qed.

(** * Further properties *)

(** ** What the nodes leave alone *)

Lemma node_runs_app (a b : list Event) :
  node_runs (a ++ b) = node_runs a ++ node_runs b.
Proof. apply filter_app. Qed.

Lemma visits_node_runs n (tr : list Event) :
  visits n (node_runs tr) = visits n tr.
Proof.
  unfold visits, node_runs. induction tr as [|ev tr IH]; [reflexivity|].
  destruct ev; simpl; try exact IH.
  destruct (Node_eqb n n0); simpl; rewrite IH; reflexivity.
Qed.

Section MoreFrames.

Variable Sigma : Type.
Variable env : Collaborators Sigma.

Section Field.

Variable X : Type.
Variable g : ChatState -> X.

Lemma keeps_field_ret {A} (a : A) : keeps_field g (@ret Sigma A a).
Proof. intros m. reflexivity. Qed.

Lemma keeps_field_raise {A} e : keeps_field g (@raise Sigma A e).
Proof. intros m. reflexivity. Qed.

Lemma keeps_field_bind {A B} (c : M Sigma A) (k : A -> M Sigma B) :
  keeps_field g c -> (forall a, keeps_field g (k a)) ->
  keeps_field g (bind c k).
Proof.
  intros Hc Hk m. unfold bind. specialize (Hc m).
  destruct (c m) as [[a|e] m1]; simpl in *; [rewrite Hk|]; exact Hc.
Qed.

Lemma keeps_field_try {A} (c : M Sigma A) (h : Exn -> M Sigma A) :
  keeps_field g c -> (forall e, keeps_field g (h e)) ->
  keeps_field g (try_except c h).
Proof.
  intros Hc Hh m. unfold try_except. specialize (Hc m).
  destruct (c m) as [[a|e] m1]; simpl in *; [|rewrite Hh]; exact Hc.
Qed.

Lemma keeps_field_get_chat : keeps_field g (@get_chat Sigma).
Proof. intros m. reflexivity. Qed.

Lemma keeps_field_get_memory : keeps_field g (@get_memory Sigma).
Proof. intros m. reflexivity. Qed.

Lemma keeps_field_log ev : keeps_field g (@log Sigma ev).
Proof. intros m. reflexivity. Qed.

Lemma keeps_field_call {A} (f : Sigma -> Outcome A * Sigma) :
  keeps_field g (call f).
Proof. intros m. unfold call. destruct (f (ext m)). reflexivity. Qed.

Lemma keeps_field_attribute {A B} attr (f : A -> B) o :
  keeps_field g (@attribute Sigma A B attr f o).
Proof. destruct o; [apply keeps_field_ret|apply keeps_field_raise]. Qed.

Lemma keeps_field_llm_invoke msgs : keeps_field g (llm_invoke env msgs).
Proof.
  intros m. unfold llm_invoke, call, log.
  destruct (gateway_plain env msgs (ext m)). reflexivity.
Qed.

Lemma keeps_field_add_user msg : keeps_field g (@add_user_message Sigma msg).
Proof. intros m. reflexivity. Qed.

Lemma keeps_field_add_ai msg : keeps_field g (@add_ai_message Sigma msg).
Proof. intros m. reflexivity. Qed.

(** An assignment to another field. *)
Lemma keeps_field_update_chat f :
  (forall s, g (f s) = g s) -> keeps_field g (@update_chat Sigma f).
Proof. intros Hf m. simpl. apply Hf. Qed.

Lemma keeps_field_run_tool_calls tcs : forall msgs res,
  keeps_field g (run_tool_calls env tcs msgs res).
Proof.
  induction tcs as [|tc tcs IH]; intros msgs res; simpl.
  - apply keeps_field_ret.
  - apply keeps_field_bind; [|intros a; apply IH].
    unfold run_tool_call, tool_run.
    destruct (find_tool (tc_name tc)).
    + apply keeps_field_try; [|intros e; apply keeps_field_ret].
      apply keeps_field_bind; [|intros a; apply keeps_field_ret].
      apply keeps_field_bind;
        [apply keeps_field_log|intros a; apply keeps_field_call].
    + apply keeps_field_ret.
Qed.

End Field.

Lemma keeps_node_runs_ret {A} (a : A) : keeps_node_runs (@ret Sigma A a).
Proof. intros m. reflexivity. Qed.

Lemma keeps_node_runs_raise {A} e : keeps_node_runs (@raise Sigma A e).
Proof. intros m. reflexivity. Qed.

Lemma keeps_node_runs_bind {A B} (c : M Sigma A) (k : A -> M Sigma B) :
  keeps_node_runs c -> (forall a, keeps_node_runs (k a)) ->
  keeps_node_runs (bind c k).
Proof.
  intros Hc Hk m. unfold bind. specialize (Hc m).
  destruct (c m) as [[a|e] m1]; simpl in *; [rewrite Hk|]; exact Hc.
Qed.

Lemma keeps_node_runs_try {A} (c : M Sigma A) (h : Exn -> M Sigma A) :
  keeps_node_runs c -> (forall e, keeps_node_runs (h e)) ->
  keeps_node_runs (try_except c h).
Proof.
  intros Hc Hh m. unfold try_except. specialize (Hc m).
  destruct (c m) as [[a|e] m1]; simpl in *; [|rewrite Hh]; exact Hc.
Qed.

Lemma keeps_node_runs_get_chat : keeps_node_runs (@get_chat Sigma).
Proof. intros m. reflexivity. Qed.

Lemma keeps_node_runs_get_memory : keeps_node_runs (@get_memory Sigma).
Proof. intros m. reflexivity. Qed.

Lemma keeps_node_runs_update_chat f : keeps_node_runs (@update_chat Sigma f).
Proof. intros m. reflexivity. Qed.

Lemma keeps_node_runs_add_user msg : keeps_node_runs (@add_user_message Sigma msg).
Proof. intros m. reflexivity. Qed.

Lemma keeps_node_runs_add_ai msg : keeps_node_runs (@add_ai_message Sigma msg).
Proof. intros m. reflexivity. Qed.

Lemma keeps_node_runs_call {A} (f : Sigma -> Outcome A * Sigma) :
  keeps_node_runs (call f).
Proof. intros m. unfold call. destruct (f (ext m)). reflexivity. Qed.

Lemma keeps_node_runs_attribute {A B} attr (f : A -> B) o :
  keeps_node_runs (@attribute Sigma A B attr f o).
Proof. destruct o; [apply keeps_node_runs_ret|apply keeps_node_runs_raise]. Qed.

(** Logging a gateway or tool call enters no node. *)
Lemma keeps_node_runs_log ev :
  is_node_run ev = false -> keeps_node_runs (@log Sigma ev).
Proof.
  intros Hev m. simpl. rewrite node_runs_app. simpl. rewrite Hev.
  apply app_nil_r.
Qed.

Lemma keeps_node_runs_llm_invoke msgs : keeps_node_runs (llm_invoke env msgs).
Proof.
  intros m. unfold llm_invoke, call, log.
  destruct (gateway_plain env msgs (ext m)). simpl.
  rewrite node_runs_app. simpl. apply app_nil_r.
Qed.

End MoreFrames.

Create HintDb field_frame.
Create HintDb runs_frame.

#[local] Hint Resolve keeps_field_ret keeps_field_raise keeps_field_get_chat
  keeps_field_get_memory keeps_field_log keeps_field_call
  keeps_field_attribute keeps_field_llm_invoke keeps_field_add_user
  keeps_field_add_ai keeps_field_run_tool_calls : field_frame.

#[local] Hint Resolve keeps_node_runs_ret keeps_node_runs_raise
  keeps_node_runs_get_chat keeps_node_runs_get_memory
  keeps_node_runs_update_chat keeps_node_runs_add_user keeps_node_runs_add_ai
  keeps_node_runs_call keeps_node_runs_attribute keeps_node_runs_llm_invoke
  : runs_frame.

(** Splits a node body into its steps; assignments to other fields and the
    logging of calls are discharged by computation. *)
Ltac field_frame :=
  repeat first
    [ apply keeps_field_try; [|intros ?]
    | apply keeps_field_bind; [|intros ?]
    | apply keeps_field_update_chat; intros ?; reflexivity
    | solve [auto with field_frame] ].

Ltac runs_frame :=
  repeat first
    [ apply keeps_node_runs_try; [|intros ?]
    | apply keeps_node_runs_bind; [|intros ?]
    | apply keeps_node_runs_log; reflexivity
    | solve [auto with runs_frame] ].

Section NodeFrames.

Variable Sigma : Type.
Variable env : Collaborators Sigma.

Lemma keeps_node_runs_run_tool_calls tcs : forall msgs res,
  keeps_node_runs (run_tool_calls env tcs msgs res).
Proof.
  induction tcs as [|tc tcs IH]; intros msgs res; simpl.
  - runs_frame.
  - apply keeps_node_runs_bind; [|intros a; apply IH].
    unfold run_tool_call, tool_run.
    destruct (find_tool (tc_name tc)); runs_frame.
Qed.

Lemma keeps_node_runs_tool_loop n : forall msgs res,
  keeps_node_runs (tool_loop env n msgs res).
Proof.
  induction n as [|n IH]; intros msgs res; simpl.
  - runs_frame.
  - unfold llm_with_tools_invoke.
    apply keeps_node_runs_bind; [runs_frame|]. intros reply.
    destruct (ai_tool_calls reply) as [|tc tcs]; [runs_frame|].
    apply keeps_node_runs_bind;
      [apply (keeps_node_runs_run_tool_calls (tc :: tcs))|].
    intros a. apply IH.
Qed.

Lemma keeps_node_runs_run_node n : keeps_node_runs (run_node env n).
Proof.
  destruct n; simpl.
  - unfold supervisor_node, structured_decision. runs_frame.
  - unfold rewriter_node, structured_rewrite. runs_frame.
  - unfold tool_selector_node.
    apply keeps_node_runs_try; [|intros e; runs_frame].
    do 2 (apply keeps_node_runs_bind; [runs_frame|intros ?]).
    apply keeps_node_runs_tool_loop.
  - unfold response_generator_node.
    apply keeps_node_runs_try; [|intros e; runs_frame].
    do 2 (apply keeps_node_runs_bind; [runs_frame|intros ?]).
    apply keeps_node_runs_bind.
    + destruct (dict_get "llm_final_response" _); [runs_frame|].
      destruct (dict_get "error" _); [runs_frame|].
      apply keeps_node_runs_bind; [runs_frame|]. intros [c|r]; runs_frame.
    + intros ?. apply keeps_node_runs_bind; [runs_frame|]. intros ?.
      apply keeps_node_runs_bind; [|intros ?; runs_frame].
      destruct a0; runs_frame.
  - runs_frame.
Qed.

(** Only [set_tool_results] is used by the loop. *)
Lemma keeps_field_tool_loop {X} (g : ChatState -> X) n :
  (forall t s, g (set_tool_results t s) = g s) ->
  forall msgs res, keeps_field g (tool_loop env n msgs res).
Proof.
  intros Hg. induction n as [|n IH]; intros msgs res; simpl.
  - apply keeps_field_bind; [auto with field_frame|]. intros final.
    apply keeps_field_update_chat. intros ?. apply Hg.
  - unfold llm_with_tools_invoke.
    apply keeps_field_bind; [field_frame|]. intros reply.
    destruct (ai_tool_calls reply) as [|tc tcs].
    + apply keeps_field_update_chat. intros ?. apply Hg.
    + apply keeps_field_bind;
        [apply (keeps_field_run_tool_calls Sigma env X g (tc :: tcs))|].
      intros a. apply IH.
Qed.

Lemma keeps_field_tool_selector {X} (g : ChatState -> X) :
  (forall t s, g (set_tool_results t s) = g s) ->
  keeps_field g (tool_selector_node env).
Proof.
  intros Hg. unfold tool_selector_node.
  apply keeps_field_try.
  - do 2 (apply keeps_field_bind; [field_frame|intros ?]).
    apply keeps_field_tool_loop. exact Hg.
  - intros e. apply keeps_field_update_chat. intros ?. apply Hg.
Qed.

(** The Responder assigns [final_response] and [metadata] only. *)
Lemma keeps_field_responder {X} (g : ChatState -> X) :
  (forall r s, g (set_final_response r s) = g s) ->
  (forall md s, g (set_metadata md s) = g s) ->
  keeps_field g (response_generator_node env).
Proof.
  intros Hf Hm. unfold response_generator_node.
  apply keeps_field_try.
  - do 2 (apply keeps_field_bind; [field_frame|intros ?]).
    apply keeps_field_bind.
    + destruct (dict_get "llm_final_response" _);
        [apply keeps_field_update_chat; intros ?; apply Hf|].
      destruct (dict_get "error" _);
        [apply keeps_field_update_chat; intros ?; apply Hf|].
      apply keeps_field_bind; [field_frame|].
      intros [c|r]; apply keeps_field_update_chat; intros ?; apply Hf.
    + intros ?. apply keeps_field_bind; [field_frame|]. intros ?.
      apply keeps_field_bind.
      * destruct a0; field_frame.
      * intros ?. apply keeps_field_bind; [field_frame|]. intros ?.
        apply keeps_field_update_chat. intros ?. apply Hm.
  - intros e.
    apply keeps_field_bind; [|intros ?];
      apply keeps_field_update_chat; intros ?; [apply Hf|apply Hm].
Qed.

Lemma keeps_original_message n : keeps_field original_message (run_node env n).
Proof.
  destruct n; simpl.
  - unfold supervisor_node, structured_decision. field_frame.
  - unfold rewriter_node, structured_rewrite. field_frame.
  - apply keeps_field_tool_selector. reflexivity.
  - apply keeps_field_responder; reflexivity.
  - field_frame.
Qed.

Lemma keeps_rewriter_response n :
  n <> Rewriter -> keeps_field rewriter_response (run_node env n).
Proof.
  intros Hn. destruct n; simpl; try contradiction.
  - unfold supervisor_node, structured_decision. field_frame.
  - apply keeps_field_tool_selector. reflexivity.
  - apply keeps_field_responder; reflexivity.
  - field_frame.
Qed.

End NodeFrames.

(** ** Whole runs of the graph *)

Section GraphFacts.

Variable Sigma : Type.
Variable env : Collaborators Sigma.

Lemma node_runs_entered (m : Machine Sigma) n :
  node_runs (trace (entered m n)) = node_runs (trace m) ++ [NodeRun n].
Proof. unfold entered. simpl. rewrite node_runs_app. reflexivity. Qed.

Lemma node_runs_after_node (m : Machine Sigma) n :
  node_runs (trace (snd (run_node env n (entered m n))))
  = node_runs (trace m) ++ [NodeRun n].
Proof. rewrite keeps_node_runs_run_node. apply node_runs_entered. Qed.

Lemma visits_after_node (m : Machine Sigma) n n' :
  visits n' (trace (snd (run_node env n (entered m n))))
  = (visits n' (trace m) + if Node_eqb n' n then 1 else 0)%nat.
Proof.
  rewrite <- visits_node_runs, node_runs_after_node, visits_app.
  rewrite visits_node_runs. unfold visits at 2. simpl.
  destruct (Node_eqb n' n); reflexivity.
Qed.

(** X8: the user's verbatim input is never reassigned: not by a node, not by a
    run of the graph from any node, and so the final state of a turn still
    carries the message that was passed to [process_message]. *)
Theorem original_message_immutable (steps : nat) (n : Node)
    (m : Machine Sigma) (message : string) :
  original_message (chat (snd (run_node env n m)))
    = original_message (chat m) /\
  original_message (chat (snd (run_graph env steps n m)))
    = original_message (chat m) /\
  original_message
    (chat (snd (process_message env {| is_initialized := true |} message m)))
    = message.
Proof.
  assert (Hrun : forall steps n (m : Machine Sigma),
             original_message (chat (snd (run_graph env steps n m)))
             = original_message (chat m)).
  { clear. induction steps as [|steps IH]; intros n m.
    - destruct n; reflexivity.
    - destruct (Node_eqb n END) eqn:Hn.
      + destruct n; try discriminate. reflexivity.
      + rewrite run_graph_step by (intros ->; discriminate). cbv zeta.
        rewrite IH. rewrite (keeps_original_message Sigma env n). reflexivity. }
  split; [apply keeps_original_message|]. split; [apply Hrun|].
  rewrite (process_message_initialized Sigma env
             {| is_initialized := true |} message m eq_refl).
  pose proof (Hrun (recursion_limit env) Supervisor
                {| chat := ChatState_new message; memory := memory m;
                   trace := trace m; ext := ext m |}) as H.
  destruct (run_graph env (recursion_limit env) Supervisor _) as [[a|e] m1];
    exact H.
Qed.

(** The runner never enters more nodes than it has super-steps; it raises
    only with [GraphRecursionError], and only after using all of them. *)
Theorem run_graph_budget (steps : nat) : forall (n : Node) (m : Machine Sigma),
  match run_graph env steps n m with
  | (Ok _, m') =>
      (length (node_runs (trace m'))
       <= length (node_runs (trace m)) + steps)%nat
  | (Raise e, m') =>
      e = GraphRecursionError /\
      length (node_runs (trace m'))
      = (length (node_runs (trace m)) + steps)%nat
  end.
Proof.
  induction steps as [|steps IH]; intros n m.
  - destruct n; simpl; try (split; [reflexivity|lia]); lia.
  - destruct (Node_eqb n END) eqn:Hn.
    + destruct n; try discriminate. simpl. lia.
    + rewrite run_graph_step by (intros ->; discriminate). cbv zeta.
      specialize (IH (successor n
                        (chat (snd (run_node env n (entered m n)))))
                     (snd (run_node env n (entered m n)))).
      rewrite node_runs_after_node, length_app in IH. simpl in IH.
      destruct (run_graph env steps _ _) as [[a|e] m1].
      * lia.
      * destruct IH as [He Hlen]. split; [exact He|lia].
Qed.

Lemma run_from_responder steps (m : Machine Sigma) :
  exists m',
    run_graph env (S steps) ResponseGenerator m = (Ok tt, m') /\
    node_runs (trace m') = node_runs (trace m) ++ [NodeRun ResponseGenerator].
Proof.
  rewrite run_graph_step by discriminate. cbv zeta.
  rewrite run_graph_END. eexists. split; [reflexivity|].
  apply node_runs_after_node.
Qed.

Lemma run_from_dispatcher steps (m : Machine Sigma) :
  exists m',
    run_graph env (S (S steps)) ToolSelector m = (Ok tt, m') /\
    node_runs (trace m')
    = node_runs (trace m) ++ [NodeRun ToolSelector; NodeRun ResponseGenerator].
Proof.
  rewrite run_graph_step by discriminate. cbv zeta.
  unfold successor at 1.
  destruct (run_from_responder steps
              (snd (run_node env ToolSelector (entered m ToolSelector))))
    as (m' & Hrun & Hruns).
  exists m'. split; [exact Hrun|].
  rewrite Hruns, node_runs_after_node, <- app_assoc. reflexivity.
Qed.

Lemma run_graph_visits steps : forall n (m : Machine Sigma),
  n <> END ->
  let result := run_graph env steps n m in
  let before := trace m in
  let after := trace (snd result) in
  (visits ToolSelector after
   <= visits ToolSelector before
      + if Node_eqb n ResponseGenerator then 0 else 1)%nat /\
  (visits ResponseGenerator after <= visits ResponseGenerator before + 1)%nat /\
  match fst result with
  | Ok _ =>
      (exists earlier,
         node_runs after = earlier ++ [NodeRun ResponseGenerator]) /\
      visits ResponseGenerator after
      = (visits ResponseGenerator before + 1)%nat
  | Raise _ =>
      visits ResponseGenerator after = visits ResponseGenerator before
  end.
Proof.
  cbv zeta. induction steps as [|steps IH]; intros n m Hn.
  - destruct n; try contradiction; simpl; repeat split; lia.
  - rewrite run_graph_step by exact Hn. cbv zeta.
    set (m1 := snd (run_node env n (entered m n))).
    pose proof (visits_after_node m n ToolSelector) as HvT.
    pose proof (visits_after_node m n ResponseGenerator) as HvR.
    pose proof (node_runs_after_node m n) as Hruns.
    fold m1 in HvT, HvR, Hruns.
    destruct n; try contradiction; unfold successor; simpl in HvT, HvR.
    + destruct (supervisor_always_decides Sigma env (entered m Supervisor))
        as [d Hd].
      pose proof (router_needs_decision _ d Hd) as Hne. fold m1 in Hne.
      destruct (IH (supervisor_router (chat m1)) m1 Hne) as (Hts & Hrg & Hout).
      split; [destruct (Node_eqb _ ResponseGenerator); simpl; lia|].
      split; [lia|].
      destruct (fst (run_graph env steps _ m1)); [|lia].
      destruct Hout as [Hlast Hc]. split; [exact Hlast|lia].
    + destruct (IH Supervisor m1) as (Hts & Hrg & Hout); [discriminate|].
      simpl in Hts. split; [simpl; lia|]. split; [lia|].
      destruct (fst (run_graph env steps _ m1)); [|lia].
      destruct Hout as [Hlast Hc]. split; [exact Hlast|lia].
    + destruct (IH ResponseGenerator m1) as (Hts & Hrg & Hout); [discriminate|].
      simpl in Hts. split; [simpl; lia|]. split; [lia|].
      destruct (fst (run_graph env steps _ m1)); [|lia].
      destruct Hout as [Hlast Hc]. split; [exact Hlast|lia].
    + rewrite run_graph_END. simpl fst. simpl snd.
      split; [simpl; lia|]. split; [lia|].
      split; [|lia]. exists (node_runs (trace m)). exact Hruns.
Qed.

(** X9: in every run from the Classifier the Tool-Dispatcher and the Responder
    are each entered at most once; a run that returns entered the Responder
    exactly once, as its last node, and a run that raises never reached
    it. *)
Theorem responder_runs_once (steps : nat) (m : Machine Sigma) :
  let result := run_graph env steps Supervisor m in
  let before := trace m in
  let after := trace (snd result) in
  (visits ToolSelector after <= visits ToolSelector before + 1)%nat /\
  (visits ResponseGenerator after <= visits ResponseGenerator before + 1)%nat /\
  match fst result with
  | Ok _ =>
      (exists earlier,
         node_runs after = earlier ++ [NodeRun ResponseGenerator]) /\
      visits ResponseGenerator after
      = (visits ResponseGenerator before + 1)%nat
  | Raise _ =>
      visits ResponseGenerator after = visits ResponseGenerator before
  end.
Proof.
  exact (run_graph_visits steps Supervisor m ltac:(discriminate)).
Qed.

End GraphFacts.

(** ** The Rewriter, when it answers *)

Section RewriteOnce.

Variable Sigma : Type.
Variable env : Collaborators Sigma.

Lemma rewriter_records_answer (m : Machine Sigma) r x :
  gateway_rewrite env
    (_create_simple_messages (memory m) (rewriter_system (prompts env))
       (original_message (chat m))
       match supervisor_decision (chat m) with
       | Some d =>
           if str_truthy (reasoning d)
           then Some ("Supervisor reasoning: " +++ reasoning d)
           else None
       | None => None
       end true 6 None) (ext m) = (Ok (Some r), x) ->
  rewriter_node env m =
  (Ok tt,
   {| chat := set_current_message (rewritten_message r)
                (set_rewriter_response (Some r) (chat m));
      memory := memory m;
      trace := trace m ++
        [CallRewrite
           (_create_simple_messages (memory m) (rewriter_system (prompts env))
              (original_message (chat m))
              match supervisor_decision (chat m) with
              | Some d =>
                  if str_truthy (reasoning d)
                  then Some ("Supervisor reasoning: " +++ reasoning d)
                  else None
              | None => None
              end true 6 None)];
      ext := x |}).
Proof.
  intros Hgw. unfold rewriter_node, structured_rewrite. monad_unfold.
  cbn [chat memory trace ext]. rewrite Hgw. reflexivity.
Qed.

Lemma rewriter_answers (Hrw : rewriter_always_answers env) (m : Machine Sigma) :
  exists r, rewriter_response (chat (snd (rewriter_node env m))) = Some r.
Proof.
  destruct (Hrw (_create_simple_messages (memory m)
                   (rewriter_system (prompts env)) (original_message (chat m))
                   match supervisor_decision (chat m) with
                   | Some d =>
                       if str_truthy (reasoning d)
                       then Some ("Supervisor reasoning: " +++ reasoning d)
                       else None
                   | None => None
                   end true 6 None) (ext m)) as (r & x & Hgw).
  rewrite (rewriter_records_answer m r x Hgw). exists r. reflexivity.
Qed.

(** Once a rewrite is stored, or once the turn has left the Classifier, the
    Rewriter is not entered again. *)
Lemma no_more_rewrites steps : forall n (m : Machine Sigma),
  n <> END -> n <> Rewriter ->
  (n = Supervisor -> rewriter_response (chat m) <> None) ->
  visits Rewriter (trace (snd (run_graph env steps n m)))
  = visits Rewriter (trace m).
Proof.
  induction steps as [|steps IH]; intros n m Hend Hrw Hsome.
  - destruct n; try contradiction; reflexivity.
  - rewrite run_graph_step by exact Hend. cbv zeta.
    set (m1 := snd (run_node env n (entered m n))).
    pose proof (visits_after_node Sigma env m n Rewriter) as Hv. fold m1 in Hv.
    destruct n; try contradiction; unfold successor; simpl in Hv.
    + assert (Hr1 : rewriter_response (chat m1) <> None).
      { unfold m1.
        rewrite (keeps_rewriter_response Sigma env Supervisor
                   ltac:(discriminate)).
        apply Hsome. reflexivity. }
      destruct (rewriter_response (chat m1)) as [r|] eqn:Hr; [|contradiction].
      destruct (supervisor_always_decides Sigma env (entered m Supervisor))
        as [d Hd].
    change (supervisor_decision (chat m1) = Some d) in Hd.
      rewrite IH.
      * lia.
      * exact (router_needs_decision _ d Hd).
      * exact (router_skips_rewriter_once_rewritten _ r Hr).
      * intros Hsup. exfalso. revert Hsup. unfold supervisor_router.
        rewrite Hd. destruct (needs_rewrite d && _); [discriminate|].
        destruct (Intent_eqb (intent d) tool_required); discriminate.
    + rewrite IH; [lia|discriminate|discriminate|discriminate].
    + rewrite run_graph_END. simpl. lia.
Qed.

Lemma run_after_rewrite steps (m : Machine Sigma) :
  rewriter_response (chat m) <> None ->
  exists m',
    run_graph env (S (S (S steps))) Supervisor m = (Ok tt, m') /\
    (length (node_runs (trace m')) <= length (node_runs (trace m)) + 3)%nat.
Proof.
  intros Hsome.
  rewrite run_graph_step by discriminate. cbv zeta.
  set (m1 := snd (run_node env Supervisor (entered m Supervisor))).
  pose proof (node_runs_after_node Sigma env m Supervisor) as Hruns.
  fold m1 in Hruns.
  assert (Hr1 : rewriter_response (chat m1) <> None).
  { unfold m1.
    rewrite (keeps_rewriter_response Sigma env Supervisor ltac:(discriminate)).
    exact Hsome. }
  destruct (rewriter_response (chat m1)) as [r|] eqn:Hr; [|contradiction].
  destruct (supervisor_always_decides Sigma env (entered m Supervisor))
    as [d Hd].
    change (supervisor_decision (chat m1) = Some d) in Hd.
  pose proof (router_needs_decision _ d Hd) as Hne.
  pose proof (router_skips_rewriter_once_rewritten _ r Hr) as Hnr.
  unfold successor.
  assert (Hnot_sup : supervisor_router (chat m1) <> Supervisor).
  { unfold supervisor_router. rewrite Hd.
    destruct (needs_rewrite d && _); [discriminate|].
    destruct (Intent_eqb (intent d) tool_required); discriminate. }
  destruct (supervisor_router (chat m1)); try contradiction.
  - destruct (run_from_dispatcher Sigma env steps m1) as (m' & Hrun & Hr').
    exists m'. split; [exact Hrun|].
    rewrite Hr', Hruns, !length_app. simpl. lia.
  - destruct (run_from_responder Sigma env (S steps) m1) as (m' & Hrun & Hr').
    exists m'. split; [exact Hrun|].
    rewrite Hr', Hruns, !length_app. simpl. lia.
Qed.

(** X10: when the Rewriter's gateway call answers whenever it is made, the
    Rewriter is entered at most once in any run, and five super-steps are
    enough for every turn to finish: Classifier, Rewriter, Classifier,
    Tool-Dispatcher, Responder at the longest. *)
Theorem rewriter_runs_once_when_it_answers (steps : nat) (m : Machine Sigma) :
  rewriter_always_answers env ->
  (5 <= steps)%nat ->
  exists m',
    run_graph env steps Supervisor m = (Ok tt, m') /\
    (visits Rewriter (trace m') <= visits Rewriter (trace m) + 1)%nat /\
    (length (node_runs (trace m')) <= length (node_runs (trace m)) + 5)%nat.
Proof.
  intros Hrw Hsteps.
  destruct steps as [|[|[|[|[|steps]]]]]; try lia. clear Hsteps.
  assert (Hvis : (visits Rewriter
                    (trace (snd (run_graph env (S (S (S (S (S steps)))))
                                   Supervisor m)))
                  <= visits Rewriter (trace m) + 1)%nat).
  { rewrite run_graph_step by discriminate. cbv zeta.
    set (m1 := snd (run_node env Supervisor (entered m Supervisor))).
    pose proof (visits_after_node Sigma env m Supervisor Rewriter) as Hv1.
    fold m1 in Hv1. simpl in Hv1.
    destruct (supervisor_always_decides Sigma env (entered m Supervisor))
      as [d Hd].
    change (supervisor_decision (chat m1) = Some d) in Hd.
    pose proof (router_needs_decision _ d Hd) as Hne.
    unfold successor.
    destruct (supervisor_router (chat m1)) eqn:Hroute; try contradiction.
    - exfalso. revert Hroute. unfold supervisor_router. rewrite Hd.
      destruct (needs_rewrite d && _); [discriminate|].
      destruct (Intent_eqb (intent d) tool_required); discriminate.
    - rewrite run_graph_step by discriminate. cbv zeta. unfold successor.
      set (m2 := snd (run_node env Rewriter (entered m1 Rewriter))).
      pose proof (visits_after_node Sigma env m1 Rewriter Rewriter) as Hv2.
      fold m2 in Hv2. simpl in Hv2.
      rewrite no_more_rewrites; [lia|discriminate|discriminate|].
      intros _. destruct (rewriter_answers Hrw (entered m1 Rewriter)) as [r Hr].
      unfold m2. simpl run_node. rewrite Hr. discriminate.
    - rewrite no_more_rewrites; [lia|discriminate|discriminate|discriminate].
    - rewrite no_more_rewrites; [lia|discriminate|discriminate|discriminate]. }
  revert Hvis.
  rewrite run_graph_step by discriminate. cbv zeta.
  set (m1 := snd (run_node env Supervisor (entered m Supervisor))).
  pose proof (node_runs_after_node Sigma env m Supervisor) as Hruns1.
  fold m1 in Hruns1.
  destruct (supervisor_always_decides Sigma env (entered m Supervisor))
    as [d Hd].
    change (supervisor_decision (chat m1) = Some d) in Hd.
  pose proof (router_needs_decision _ d Hd) as Hne.
  unfold successor at 1 2.
  destruct (supervisor_router (chat m1)) eqn:Hroute; try contradiction.
  - exfalso. revert Hroute. unfold supervisor_router. rewrite Hd.
    destruct (needs_rewrite d && _); [discriminate|].
    destruct (Intent_eqb (intent d) tool_required); discriminate.
  - rewrite run_graph_step by discriminate. cbv zeta. unfold successor.
    set (m2 := snd (run_node env Rewriter (entered m1 Rewriter))).
    pose proof (node_runs_after_node Sigma env m1 Rewriter) as Hruns2.
    fold m2 in Hruns2.
    destruct (rewriter_answers Hrw (entered m1 Rewriter)) as [r Hr].
    assert (Hsome : rewriter_response (chat m2) <> None).
    { unfold m2. simpl run_node. rewrite Hr. discriminate. }
    destruct (run_after_rewrite steps m2 Hsome) as (m' & Hrun & Hlen).
    intros Hvis. exists m'. rewrite Hrun in Hvis |- *.
    split; [reflexivity|]. split; [exact Hvis|].
    rewrite Hruns2, Hruns1, !length_app in Hlen. simpl in Hlen. lia.
  - destruct (run_from_dispatcher Sigma env (S (S steps)) m1)
      as (m' & Hrun & Hr').
    intros Hvis. exists m'. rewrite Hrun in Hvis |- *.
    split; [reflexivity|]. split; [exact Hvis|].
    rewrite Hr', Hruns1, !length_app. simpl. lia.
  - destruct (run_from_responder Sigma env (S (S (S steps))) m1)
      as (m' & Hrun & Hr').
    intros Hvis. exists m'. rewrite Hrun in Hvis |- *.
    split; [reflexivity|]. split; [exact Hvis|].
    rewrite Hr', Hruns1, !length_app. simpl. lia.
Qed.

End RewriteOnce.

Lemma rewriter_runs_once_when_it_answers_witness :
  rewriter_always_answers Cases.helpful /\
  exists m',
    run_graph Cases.helpful 25 Supervisor
      (Cases.begin "check the sensor" (Some [])) = (Ok tt, m') /\
    (visits Rewriter (trace m') <= 0 + 1)%nat /\
    (length (node_runs (trace m')) <= 0 + 5)%nat.
Proof.
  assert (H : rewriter_always_answers Cases.helpful).
  { intros msgs s. do 2 eexists. reflexivity. }
  split; [exact H|].
  refine (rewriter_runs_once_when_it_answers nat Cases.helpful 25
            (Cases.begin "check the sensor" (Some [])) H _).
  repeat constructor.
Defined.

(** ** More on the dispatch loop *)

Lemma dict_mem_in {V} (k : string) (d : dict V) :
  dict_mem k d = true <-> In k (dict_keys d).
Proof.
  unfold dict_mem. induction d as [|[k' v'] d IH]; simpl.
  - split; [discriminate|contradiction].
  - destruct (String.eqb k k') eqn:E.
    + apply String.eqb_eq in E. subst. split; auto.
    + rewrite IH. apply String.eqb_neq in E. split; [auto|].
      intros [H|H]; [congruence|exact H].
Qed.

Lemma dict_set_fresh {V} (k : string) (v : V) (d : dict V) :
  dict_mem k d = false -> dict_set k v d = d ++ [(k, v)].
Proof.
  unfold dict_mem. induction d as [|[k' v'] d IH]; simpl; [reflexivity|].
  destruct (String.eqb k k'); [discriminate|]. intros H. now rewrite IH.
Qed.

Lemma dict_keys_set {V} (k : string) (v : V) (d : dict V) :
  dict_keys (dict_set k v d)
  = if dict_mem k d then dict_keys d else dict_keys d ++ [k].
Proof.
  unfold dict_mem, dict_keys. induction d as [|[k' v'] d IH]; simpl;
    [reflexivity|].
  destruct (String.eqb k k') eqn:E; simpl.
  - apply String.eqb_eq in E. now subst.
  - rewrite IH. destruct (dict_get k d); reflexivity.
Qed.

Lemma dict_get_app_fresh {V} (k : string) (v : V) (d : dict V) :
  dict_mem k d = false -> dict_get k (d ++ [(k, v)]) = Some v.
Proof.
  intros H. rewrite <- (dict_set_fresh k v d H). apply dict_get_set_same.
Qed.

Lemma tool_entries_set name observation results :
  find_tool name = true -> tool_entries results ->
  tool_entries (dict_set name observation results).
Proof.
  intros Hfind [Hnodup Hall]. unfold tool_entries.
  rewrite dict_keys_set. destruct (dict_mem name results) eqn:Hmem;
    [split; assumption|].
  split.
  - apply NoDup_app; [exact Hnodup|constructor; [intros []|constructor]|].
    intros k Hin [Hk|[]]. subst k.
    apply dict_mem_in in Hin. congruence.
  - apply Forall_app. split; [exact Hall|]. constructor; [exact Hfind|constructor].
Qed.

Lemma sentinel_not_a_tool_entry results :
  tool_entries results -> dict_mem "llm_final_response" results = false.
Proof.
  intros [_ Hall]. destruct (dict_mem _ results) eqn:Hmem; [|reflexivity].
  apply dict_mem_in in Hmem. rewrite Forall_forall in Hall.
  specialize (Hall _ Hmem). discriminate Hall.
Qed.

Section DispatchMore.

Variable Sigma : Type.
Variable env : Collaborators Sigma.

Lemma run_tool_call_entries tc msgs res (m : Machine Sigma) :
  tool_entries res ->
  match fst (run_tool_call env tc msgs res m) with
  | Ok mr => tool_entries (snd mr)
  | Raise _ => False
  end.
Proof.
  intros Hres. unfold run_tool_call, tool_run.
  destruct (find_tool (tc_name tc)) eqn:Hfind; [|exact Hres].
  monad_unfold. simpl.
  destruct (tool_invoke env (tc_name tc) (tc_args tc) (ext m))
    as [[obs|e] x]; simpl; [|exact Hres].
  apply tool_entries_set; assumption.
Qed.

Lemma run_tool_calls_entries tcs : forall msgs res (m : Machine Sigma),
  tool_entries res ->
  match fst (run_tool_calls env tcs msgs res m) with
  | Ok mr => tool_entries (snd mr)
  | Raise _ => False
  end.
Proof.
  induction tcs as [|tc tcs IH]; intros msgs res m Hres; simpl.
  - exact Hres.
  - pose proof (run_tool_call_entries tc msgs res m Hres) as H1.
    unfold bind.
    destruct (run_tool_call env tc msgs res m) as [[[msgs1 res1]|e] m1];
      simpl in H1; [|contradiction].
    apply IH. exact H1.
Qed.

(** The loop ends in one of two ways: it stored its results with the
    sentinel entry last, or it raised with the Turn State untouched. *)
Lemma tool_loop_ends n : forall msgs res (m : Machine Sigma),
  tool_entries res ->
  (exists tools answer m',
     tool_loop env n msgs res m = (Ok tt, m') /\
     chat m' =
       set_tool_results (tools ++ [("llm_final_response", answer)]) (chat m) /\
     tool_entries tools) \/
  (exists e m',
     tool_loop env n msgs res m = (Raise e, m') /\ chat m' = chat m).
Proof.
  induction n as [|n IH]; intros msgs res m Hres.
  - simpl. unfold llm_invoke. monad_unfold. simpl.
    destruct (gateway_plain env (msgs ++ [final_instruction]) (ext m))
      as [[final|e] x]; simpl.
    + left. exists res, (reply_text final). eexists.
      split; [reflexivity|]. simpl. split; [|exact Hres].
      rewrite dict_set_fresh by (apply sentinel_not_a_tool_entry; exact Hres).
      reflexivity.
    + right. do 2 eexists. split; reflexivity.
  - destruct (gateway_tools env msgs (ext m)) as [[reply|e] x] eqn:Hgw.
    + destruct (ai_tool_calls reply) as [|tc tcs] eqn:Hcalls.
      * left. exists res, (ai_content reply). eexists.
        split.
        { simpl. unfold llm_with_tools_invoke. monad_unfold.
          cbn [chat memory trace ext]. rewrite Hgw, Hcalls. reflexivity. }
        simpl. split; [|exact Hres].
        rewrite dict_set_fresh by (apply sentinel_not_a_tool_entry; exact Hres).
        reflexivity.
      * assert (Hne : ai_tool_calls reply <> []) by (rewrite Hcalls; discriminate).
        rewrite (tool_loop_continues Sigma env n msgs res m reply x Hgw Hne).
        pose proof (run_tool_calls_entries (ai_tool_calls reply)
                      (msgs ++ [AIMessage (ai_content reply)
                                  (ai_tool_calls reply)])
                      res (after_tools_call m msgs x) Hres) as Hent.
        destruct (run_tool_calls_contained Sigma env (ai_tool_calls reply)
                    (msgs ++ [AIMessage (ai_content reply)
                                (ai_tool_calls reply)])
                    res (after_tools_call m msgs x))
          as (obs & res1 & m1 & Hrun & _ & Hc & _).
        unfold bind. rewrite Hrun in Hent |- *. simpl in Hent.
        cbn [fst snd].
        destruct (IH ((msgs ++ [AIMessage (ai_content reply)
                                  (ai_tool_calls reply)])
                        ++ obs) res1 m1 Hent)
          as [(tools & answer & m' & Hloop & Hchat & Htools)
             |(e & m' & Hloop & Hchat)].
        -- left. exists tools, answer, m'. split; [exact Hloop|].
           split; [|exact Htools]. rewrite Hchat, Hc. reflexivity.
        -- right. exists e, m'. split; [exact Hloop|].
           rewrite Hchat, Hc. reflexivity.
    + right. do 2 eexists. split.
      { simpl. unfold llm_with_tools_invoke. monad_unfold.
        cbn [chat memory trace ext]. rewrite Hgw. reflexivity. }
      reflexivity.
Qed.

Lemma tool_entries_empty : tool_entries [].
Proof. split; constructor. Qed.

Lemma tool_selector_ends (m : Machine Sigma) :
  exists m',
    tool_selector_node env m = (Ok tt, m') /\
    ((exists tools answer,
        chat m' =
          set_tool_results (tools ++ [("llm_final_response", answer)])
            (chat m) /\
        tool_entries tools) \/
     (exists e,
        chat m' = set_tool_results [("error", dispatch_error_text e)] (chat m))).
Proof.
  unfold tool_selector_node.
  unfold try_except, bind at 1. unfold get_chat at 1. cbv beta iota.
  unfold bind at 1. unfold get_memory at 1. cbv beta iota.
  destruct (tool_loop_ends max_iterations_tools
              (_create_simple_messages (memory m) (tool_selector (prompts env))
                 (current_message (chat m)) None true 6 None) [] m
              tool_entries_empty)
    as [(tools & answer & m' & Hloop & Hchat & Htools)
       |(e & m' & Hloop & Hchat)]; rewrite Hloop.
  - exists m'. split; [reflexivity|]. left. exists tools, answer. auto.
  - eexists. split; [reflexivity|]. right. exists e. simpl.
    rewrite Hchat. reflexivity.
Qed.

(** X6: whatever the model and the tools do, the Tool-Dispatcher returns and
    leaves [tool_results] in one of two shapes: the results of executed
    tools (registered names, each at most once, in order of first success)
    followed by the [llm_final_response] entry, or the single [error]
    entry. *)
Theorem dispatcher_leaves_sentinel (m : Machine Sigma) :
  exists m',
    tool_selector_node env m = (Ok tt, m') /\
    ((exists tools answer,
        tool_results (chat m') = tools ++ [("llm_final_response", answer)] /\
        NoDup (dict_keys tools) /\
        Forall (fun name => find_tool name = true) (dict_keys tools)) \/
     (exists e,
        tool_results (chat m')
        = [("error",
            "I encountered an error while processing your request: "
              +++ exn_msg e)])).
Proof.
  destruct (tool_selector_ends m) as (m' & Hrun & Hshape).
  exists m'. split; [exact Hrun|].
  destruct Hshape as [(tools & answer & Hchat & Hnodup & Hall)|(e & Hchat)].
  - left. exists tools, answer. rewrite Hchat. simpl. auto.
  - right. exists e. rewrite Hchat. reflexivity.
Qed.

End DispatchMore.

Section DispatchThenRespond.

Variable Sigma : Type.
Variable env : Collaborators Sigma.

(** The Responder on a Turn State whose answer is already in
    [tool_results]. *)
Lemma responder_takes_entry (m : Machine Sigma) answer :
  (dict_get "llm_final_response" (tool_results (chat m)) = Some answer \/
   (dict_get "llm_final_response" (tool_results (chat m)) = None /\
    dict_get "error" (tool_results (chat m)) = Some answer)) ->
  response_generator_node env m =
  (Ok tt,
   {| chat :=
        set_metadata (turn_metadata (set_final_response answer (chat m)))
          (set_final_response answer (chat m));
      memory :=
        option_map
          (fun h => h ++ [HumanMessage (current_message (chat m));
                          AIMessage answer []]) (memory m);
      trace := trace m;
      ext := ext m |}).
Proof.
  intros H. unfold response_generator_node. monad_unfold. simpl.
  destruct H as [H|[H1 H2]].
  - rewrite H. destruct (memory m); simpl; rewrite <- ?app_assoc; reflexivity.
  - rewrite H1, H2.
    destruct (memory m); simpl; rewrite <- ?app_assoc; reflexivity.
Qed.

(** X7: after the Tool-Dispatcher the Responder makes no gateway call of its
    own: the answer is the dispatcher's [llm_final_response] text, or its
    [error] text; the metadata has all five keys, and [tools_used] lists the
    executed tools followed by the sentinel key, or the [error] key alone;
    the history receives the turn's [current_message] and that answer. *)
Theorem responder_after_dispatcher (m : Machine Sigma) :
  let m1 := snd (tool_selector_node env m) in
  let m2 := snd (response_generator_node env m1) in
  trace m2 = trace m1 /\ ext m2 = ext m1 /\
  metadata_complete (metadata (chat m2)) = true /\
  memory m2 =
    option_map
      (fun h => h ++ [HumanMessage (current_message (chat m));
                      AIMessage (final_response (chat m2)) []]) (memory m) /\
  ((exists tools answer,
      tool_results (chat m1) = tools ++ [("llm_final_response", answer)] /\
      final_response (chat m2) = answer /\
      dict_get "tools_used" (metadata (chat m2))
      = Some (MList (dict_keys tools ++ ["llm_final_response"]))) \/
   (exists e,
      tool_results (chat m1)
      = [("error",
          "I encountered an error while processing your request: "
            +++ exn_msg e)] /\
      final_response (chat m2)
      = "I encountered an error while processing your request: "
          +++ exn_msg e /\
      dict_get "tools_used" (metadata (chat m2)) = Some (MList ["error"]))).
Proof.
  cbv zeta.
  destruct (tool_selector_ends Sigma env m) as (m1 & Hrun & Hshape).
  rewrite Hrun. simpl snd.
  assert (Hmem : memory m1 = memory m).
  { pose proof (keeps_memory_tool_selector Sigma env m) as H.
    rewrite Hrun in H. exact H. }
  assert (Hcur : current_message (chat m1) = current_message (chat m)).
  { pose proof (keeps_field_tool_selector Sigma env current_message
                  ltac:(reflexivity) m) as H.
    rewrite Hrun in H. exact H. }
  destruct Hshape as [(tools & answer & Hchat & Htools)|(e & Hchat)].
  - assert (Hget : dict_get "llm_final_response" (tool_results (chat m1))
                   = Some answer).
    { rewrite Hchat. simpl.
      apply dict_get_app_fresh, sentinel_not_a_tool_entry, Htools. }
    rewrite (responder_takes_entry m1 answer (or_introl Hget)).
    simpl. rewrite Hmem, Hcur. repeat split.
    left. exists tools, answer. rewrite Hchat. simpl.
    unfold dict_keys. rewrite map_app. repeat split.
  - assert (Hget : dict_get "llm_final_response" (tool_results (chat m1)) = None
                   /\ dict_get "error" (tool_results (chat m1))
                      = Some (dispatch_error_text e)).
    { rewrite Hchat. split; reflexivity. }
    rewrite (responder_takes_entry m1 _ (or_intror Hget)).
    simpl. rewrite Hmem, Hcur. repeat split.
    right. exists e. rewrite Hchat. repeat split.
Qed.

(** Gateway calls of the dispatch loop, for any model: at most as many
    tool-bound calls as iterations remain, and a plain call only after all
    of them were used. *)
Lemma tool_loop_calls n : forall msgs res (m : Machine Sigma),
  exists asked tail,
    gateway_calls (trace (snd (tool_loop env n msgs res m)))
    = gateway_calls (trace m) ++ map CallTools asked ++ tail /\
    (length asked <= n)%nat /\
    (tail = [] \/
     (length asked = n /\
      exists final_msgs result,
        tail = [CallPlain (final_msgs ++ [final_instruction]) result])).
Proof.
  induction n as [|n IH]; intros msgs res m.
  - exists []. simpl. unfold llm_invoke. monad_unfold. simpl.
    destruct (gateway_plain env (msgs ++ [final_instruction]) (ext m))
      as [[final|e] x]; simpl; eexists;
      (split; [rewrite gateway_calls_app; reflexivity|]);
      (split; [lia|]); right; (split; [reflexivity|]);
      do 2 eexists; reflexivity.
  - destruct (gateway_tools env msgs (ext m)) as [[reply|e] x] eqn:Hgw.
    + destruct (ai_tool_calls reply) as [|tc tcs] eqn:Hcalls.
      * exists [msgs], []. split; [|split; [simpl; lia|left; reflexivity]].
        simpl. unfold llm_with_tools_invoke. monad_unfold.
        cbn [chat memory trace ext]. rewrite Hgw, Hcalls. simpl.
        rewrite gateway_calls_app. reflexivity.
      * assert (Hne : ai_tool_calls reply <> [])
          by (rewrite Hcalls; discriminate).
        rewrite (tool_loop_continues Sigma env n msgs res m reply x Hgw Hne).
        destruct (run_tool_calls_contained Sigma env (ai_tool_calls reply)
                    (msgs ++ [AIMessage (ai_content reply)
                                (ai_tool_calls reply)])
                    res (after_tools_call m msgs x))
          as (obs & res1 & m1 & Hrun & _ & _ & _ & Ht).
        unfold bind. rewrite Hrun. cbn [fst snd].
        destruct (IH ((msgs ++ [AIMessage (ai_content reply)
                                  (ai_tool_calls reply)]) ++ obs) res1 m1)
          as (asked & tail & Htr & Hlen & Htail).
        exists (msgs :: asked), tail. split; [|split].
        -- rewrite Htr, Ht. unfold after_tools_call. simpl.
           rewrite gateway_calls_app. simpl. rewrite <- app_assoc. reflexivity.
        -- simpl. lia.
        -- destruct Htail as [Ht0|[Hl Hp]]; [left; exact Ht0|right].
           split; [simpl; lia|exact Hp].
    + exists [msgs], []. split; [|split; [simpl; lia|left; reflexivity]].
      simpl. unfold llm_with_tools_invoke. monad_unfold.
      cbn [chat memory trace ext]. rewrite Hgw. simpl.
      rewrite gateway_calls_app. reflexivity.
Qed.

(** X5: for any model and any tools, one run of the Tool-Dispatcher makes at
    most five tool-bound gateway calls and at most one plain call, and the
    plain call is made only after five tool-bound ones. *)
Theorem dispatch_calls_bounded (m : Machine Sigma) :
  exists asked tail,
    gateway_calls (trace (snd (tool_selector_node env m)))
    = gateway_calls (trace m) ++ map CallTools asked ++ tail /\
    (length asked <= 5)%nat /\
    (tail = [] \/
     (length asked = 5%nat /\
      exists final_msgs result,
        tail = [CallPlain (final_msgs ++ [final_instruction]) result])) /\
    (length (gateway_calls (trace (snd (tool_selector_node env m))))
     <= length (gateway_calls (trace m)) + 6)%nat.
Proof.
  assert (Hmain : exists asked tail,
    gateway_calls (trace (snd (tool_selector_node env m)))
    = gateway_calls (trace m) ++ map CallTools asked ++ tail /\
    (length asked <= 5)%nat /\
    (tail = [] \/
     (length asked = 5%nat /\
      exists final_msgs result,
        tail = [CallPlain (final_msgs ++ [final_instruction]) result]))).
  { unfold tool_selector_node.
    unfold try_except, bind at 1. unfold get_chat at 1. cbv beta iota.
    unfold bind at 1. unfold get_memory at 1. cbv beta iota.
    destruct (tool_loop_calls max_iterations_tools
                (_create_simple_messages (memory m)
                   (tool_selector (prompts env))
                   (current_message (chat m)) None true 6 None) [] m)
      as (asked & tail & Htr & Hlen & Htail).
    exists asked, tail.
    destruct (tool_loop env max_iterations_tools _ [] m) as [[a|e] m'];
      (split; [exact Htr|split; [exact Hlen|exact Htail]]). }
  destruct Hmain as (asked & tail & Htr & Hlen & Htail).
  exists asked, tail. rewrite Htr.
  split; [reflexivity|]. split; [exact Hlen|]. split; [exact Htail|].
  rewrite !length_app, length_map.
  destruct Htail as [->|[_ (fm & r & ->)]]; simpl; lia.
Qed.

(** X4: the fast path: when the first reply of the tool-bound model carries no
    tool request, the Tool-Dispatcher stops after that one gateway call,
    runs no tool, and stores the reply's text as the only entry of
    [tool_results]. *)
Theorem dispatch_fast_path (m : Machine Sigma) reply x :
  let initial :=
    _create_simple_messages (memory m) (tool_selector (prompts env))
      (current_message (chat m)) None true 6 None in
  gateway_tools env initial (ext m) = (Ok reply, x) ->
  ai_tool_calls reply = [] ->
  tool_selector_node env m =
  (Ok tt,
   {| chat :=
        set_tool_results [("llm_final_response", ai_content reply)] (chat m);
      memory := memory m;
      trace := trace m ++ [CallTools initial];
      ext := x |}).
Proof.
  intros initial Hgw Hcalls. unfold tool_selector_node.
  unfold try_except, bind at 1. unfold get_chat at 1. cbv beta iota.
  unfold bind at 1. unfold get_memory at 1. cbv beta iota.
  fold initial. simpl tool_loop. unfold llm_with_tools_invoke. monad_unfold.
  cbn [chat memory trace ext]. rewrite Hgw, Hcalls. reflexivity.
Qed.

End DispatchThenRespond.

Lemma dispatch_fast_path_witness :
  tool_selector_node Cases.direct (Scenario.start "show machines" (Some []))
  = (Ok tt,
     {| chat :=
          set_tool_results [("llm_final_response", "No assets are online.")]
            (ChatState_new "show machines");
        memory := Some [];
        trace := [CallTools [SystemMessage "use the tools"; HumanMessage ""]];
        ext := tt |}).
Proof.
  exact (dispatch_fast_path unit Cases.direct
           (Scenario.start "show machines" (Some []))
           (mkAIReply "No assets are online." []) tt eq_refl eq_refl).
Defined.

(** ** Single nodes *)

Lemma dict_get_set_other {V} (k k' : string) (v : V) (d : dict V) :
  k' <> k -> dict_get k' (dict_set k v d) = dict_get k' d.
Proof.
  intros Hne. induction d as [|[k0 v0] d IH]; simpl.
  - apply String.eqb_neq in Hne. now rewrite Hne.
  - destruct (String.eqb k k0) eqn:E; simpl.
    + apply String.eqb_eq in E. subst k0.
      apply String.eqb_neq in Hne. now rewrite Hne.
    + destruct (String.eqb k' k0); [reflexivity|exact IH].
Qed.

Lemma py_last_length {A} (n : nat) (l : list A) :
  (1 <= n)%nat -> (length (py_last n l) <= n)%nat.
Proof.
  intros Hn. unfold py_last. destruct n; [lia|].
  rewrite length_skipn. lia.
Qed.

Section SingleNodes.

Variable Sigma : Type.
Variable env : Collaborators Sigma.

(** X1: every prompt built by [_create_simple_messages] is the system
    prompt, then the history entries, then the context messages, then the
    user message.  The history entries are the last [history_limit] entries
    of the memory when history is requested and a memory is configured (all
    of them for a limit of zero), and none otherwise; the context messages
    are the tool results rendered as "{name}: {result}" joined by "; " behind
    "Context: " when there are results, followed by the additional context
    when it is given and not empty.  For a limit of at least one the prompt
    never has more than [history_limit + 4] messages. *)
Theorem simple_messages_shape (mem : option (list Message))
    (system_prompt user_message : string) (additional_context : option string)
    (include_history : bool) (history_limit : nat)
    (results : option (dict string)) :
  let history :=
    match include_history, mem with
    | true, Some entries =>
        match history_limit with
        | O => entries
        | S _ => skipn (length entries - history_limit) entries
        end
    | _, _ => []
    end in
  let summary :=
    match results with
    | None | Some [] => []
    | Some rendered =>
        [AIMessage
           ("Context: "
              +++ str_join "; "
                    (map (fun entry => fst entry +++ ": " +++ snd entry)
                       rendered)) []]
    end in
  let extra :=
    match additional_context with
    | None | Some "" => []
    | Some context => [AIMessage context []]
    end in
  _create_simple_messages mem system_prompt user_message additional_context
    include_history history_limit results
  = SystemMessage system_prompt :: history ++ summary ++ extra
      ++ [HumanMessage user_message] /\
  (history_limit = O \/
   (length history <= history_limit)%nat /\
   (length (_create_simple_messages mem system_prompt user_message
              additional_context include_history history_limit results)
    <= history_limit + 4)%nat).
Proof.
  cbv zeta.
  assert (Hmap : forall d : dict string,
             map (fun '(tool_name, result) => tool_name +++ ": " +++ result) d
             = map (fun entry => fst entry +++ ": " +++ snd entry) d).
  { intros d. apply map_ext. intros [k v]. reflexivity. }
  assert (Heq :
    _create_simple_messages mem system_prompt user_message additional_context
      include_history history_limit results
    = SystemMessage system_prompt ::
        match include_history, mem with
        | true, Some entries =>
            match history_limit with
            | O => entries
            | S _ => skipn (length entries - history_limit) entries
            end
        | _, _ => []
        end
        ++ match results with
           | None | Some [] => []
           | Some rendered =>
               [AIMessage
                  ("Context: "
                     +++ str_join "; "
                           (map (fun entry => fst entry +++ ": " +++ snd entry)
                              rendered)) []]
           end
        ++ match additional_context with
           | None | Some "" => []
           | Some context => [AIMessage context []]
           end
        ++ [HumanMessage user_message]).
  { unfold _create_simple_messages.
    destruct results as [[|[k v] rest]|];
      rewrite ?tool_summary_truthy; unfold _create_tool_summary;
      rewrite ?Hmap;
      destruct include_history; destruct mem as [[|h hs]|];
      destruct additional_context as [[|a ctx]|];
      destruct history_limit as [|limit];
      cbn [str_truthy py_last skipn length Nat.sub app];
      rewrite <- ?app_assoc; reflexivity. }
  split; [exact Heq|].
  destruct history_limit as [|limit]; [left; reflexivity|right].
  assert (Hhist :
    (length match include_history, mem with
            | true, Some entries =>
                skipn (length entries - S limit) entries
            | _, _ => []
            end <= S limit)%nat).
  { destruct include_history; [|simpl; lia].
    destruct mem as [entries|]; [|simpl; lia].
    rewrite length_skipn. lia. }
  split; [exact Hhist|].
  rewrite Heq. cbn [length]. rewrite !length_app.
  assert (Hs : (length match results with
                       | None | Some [] => []
                       | Some rendered =>
                           [AIMessage
                              ("Context: "
                                 +++ str_join "; "
                                       (map (fun entry =>
                                               fst entry +++ ": " +++ snd entry)
                                          rendered)) []]
                       end <= 1)%nat).
  { destruct results as [[|kv rest]|]; simpl; lia. }
  assert (He : (length match additional_context with
                       | None | Some "" => []
                       | Some context => [AIMessage context []]
                       end <= 1)%nat).
  { destruct additional_context as [[|a ctx]|]; simpl; lia. }
  change (length [HumanMessage user_message]) with 1%nat. lia.
Qed.


(** X2: when the structured-output call of the Classifier returns nothing, the
    node has already counted the visit and set [current_message] before the
    missing decision is noticed; it then stores the [error] decision, whose
    reasoning names the missing attribute, and the turn goes to the
    Responder. *)
Theorem supervisor_malformed_output (m : Machine Sigma) x :
  let analyzed :=
    str_or (current_message (chat m)) (original_message (chat m)) in
  gateway_decision env
    (_create_simple_messages (memory m) (supervisor_system (prompts env))
       analyzed None true 6 None) (ext m) = (Ok None, x) ->
  exists m',
    supervisor_node env m = (Ok tt, m') /\
    supervisor_decision (chat m') =
      Some {| intent := error; confidence := 0; needs_rewrite := false;
              reasoning := "Error in supervisor: 'NoneType' object has no "
                             +++ "attribute 'intent'" |} /\
    iteration_count (chat m') = (iteration_count (chat m) + 1)%Z /\
    current_message (chat m') = analyzed /\
    supervisor_router (chat m') = ResponseGenerator.
Proof.
  intros analyzed Hgw. unfold supervisor_node, structured_decision.
  monad_unfold. cbn [chat memory trace ext]. fold analyzed. rewrite Hgw.
  eexists. split; [reflexivity|]. simpl. repeat split.
Qed.

(** X3: a registered tool that returns has its observation stored under its
    name, replacing an earlier result of the same tool and touching no other
    entry, and appended to the messages under the request's id. *)
Theorem tool_result_recorded (tc : ToolCall) msgs res (m : Machine Sigma)
    observation x :
  find_tool (tc_name tc) = true ->
  tool_invoke env (tc_name tc) (tc_args tc) (ext m) = (Ok observation, x) ->
  exists res',
    run_tool_call env tc msgs res m =
    (Ok (msgs ++ [ToolMessage observation (tc_id tc)], res'),
     {| chat := chat m; memory := memory m;
        trace := trace m ++ [CallTool (tc_name tc)]; ext := x |}) /\
    dict_get (tc_name tc) res' = Some observation /\
    (forall name, name <> tc_name tc -> dict_get name res' = dict_get name res) /\
    dict_keys res' =
      if dict_mem (tc_name tc) res then dict_keys res
      else dict_keys res ++ [tc_name tc].
Proof.
  intros Hfind Hinv. exists (dict_set (tc_name tc) observation res).
  split; [|split; [apply dict_get_set_same|split]].
  - unfold run_tool_call, tool_run. rewrite Hfind. monad_unfold.
    cbn [chat memory trace ext]. rewrite Hinv. reflexivity.
  - intros name Hne. apply dict_get_set_other. exact Hne.
  - apply dict_keys_set.
Qed.

End SingleNodes.

Lemma supervisor_malformed_output_witness :
  exists m',
    supervisor_node Cases.garbled (Scenario.start "??" (Some [])) = (Ok tt, m') /\
    supervisor_decision (chat m') =
      Some {| intent := error; confidence := 0; needs_rewrite := false;
              reasoning := "Error in supervisor: 'NoneType' object has no "
                             +++ "attribute 'intent'" |} /\
    iteration_count (chat m') = (0 + 1)%Z /\
    current_message (chat m') = "??" /\
    supervisor_router (chat m') = ResponseGenerator.
Proof.
  exact (supervisor_malformed_output unit Cases.garbled
           (Scenario.start "??" (Some [])) tt eq_refl).
Defined.

Lemma tool_result_recorded_witness :
  exists res',
    run_tool_call Scenario.insatiable Scenario.ask_assets []
      [("get_data", "stale")] (Scenario.start "show machines" None)
    = (Ok ([ToolMessage "3 assets" "call-1"], res'),
       {| chat := ChatState_new "show machines"; memory := None;
          trace := [CallTool "get_data"]; ext := tt |}) /\
    dict_get "get_data" res' = Some "3 assets" /\
    (forall name, name <> "get_data" ->
       dict_get name res' = dict_get name [("get_data", "stale")]) /\
    dict_keys res' = ["get_data"].
Proof.
  exact (tool_result_recorded unit Scenario.insatiable Scenario.ask_assets []
           [("get_data", "stale")] (Scenario.start "show machines" None)
           "3 assets" tt eq_refl eq_refl).
Defined.

(** ** Whole turns *)

Section Turns.

Variable Sigma : Type.
Variable env : Collaborators Sigma.






End Turns.



Section ToolTurn.

Variable Sigma : Type.
Variable env : Collaborators Sigma.



End ToolTurn.


(** ** The agent factory and its singletons *)

Lemma dict_update_other {V} (k : string) (more : dict V) : forall base,
  ~ In k (dict_keys more) ->
  dict_get k (dict_update base more) = dict_get k base.
Proof.
  unfold dict_update. induction more as [|[k0 v0] more IH]; intros base Hnot;
    simpl; [reflexivity|].
  rewrite IH.
  - simpl. apply dict_get_set_other. intros ->. apply Hnot. left. reflexivity.
  - intros Hin. apply Hnot. right. exact Hin.
Qed.

Lemma dict_update_last {V} (k : string) (v : V) (more : dict V) : forall base,
  NoDup (dict_keys more) -> dict_get k more = Some v ->
  dict_get k (dict_update base more) = Some v.
Proof.
  induction more as [|[k0 v0] more IH]; intros base Hnodup Hget;
    [discriminate|].
  simpl in Hnodup. inversion Hnodup as [|? ? Hnotin Hnodup']; subst.
  simpl in Hget. destruct (String.eqb k k0) eqn:E.
  - apply String.eqb_eq in E. subst k0. injection Hget as ->.
    change (dict_update base ((k, v) :: more))
      with (dict_update (dict_set k v base) more).
    rewrite dict_update_other by exact Hnotin.
    apply dict_get_set_same.
  - change (dict_update base ((k0, v0) :: more))
      with (dict_update (dict_set k0 v0 base) more).
    apply IH; assumption.
Qed.

Section FactoryFacts.

Variable Llm : Type.

Lemma pass_through_keys (config : dict (Any Llm)) k :
  In k (dict_keys (pass_through config)) ->
  k <> "llm" /\ k <> "memory" /\ In k (dict_keys config).
Proof.
  unfold pass_through, dict_keys. rewrite in_map_iff.
  intros ([k' v] & Hk & Hin). simpl in Hk. subst k'.
  apply filter_In in Hin. destruct Hin as [Hin Hkeep]. simpl in Hkeep.
  apply negb_true_iff, orb_false_iff in Hkeep. destruct Hkeep as [H1 H2].
  apply String.eqb_neq in H1. apply String.eqb_neq in H2.
  repeat split; try assumption.
  apply in_map_iff. exists (k, v). split; [reflexivity|exact Hin].
Qed.

Lemma pass_through_get (config : dict (Any Llm)) k :
  k <> "llm" -> k <> "memory" ->
  dict_get k (pass_through config) = dict_get k config.
Proof.
  intros H1 H2. unfold pass_through.
  induction config as [|[k0 v0] config IH]; [reflexivity|]. simpl.
  destruct (String.eqb k k0) eqn:E.
  - apply String.eqb_eq in E. subst k0.
    apply String.eqb_neq in H1. apply String.eqb_neq in H2.
    rewrite H1, H2. simpl. now rewrite String.eqb_refl.
  - destruct (negb _); simpl; [rewrite E|]; exact IH.
Qed.

Lemma pass_through_nodup (config : dict (Any Llm)) :
  NoDup (dict_keys config) -> NoDup (dict_keys (pass_through config)).
Proof.
  unfold pass_through, dict_keys.
  induction config as [|[k0 v0] config IH]; intros Hnodup; simpl;
    [constructor|].
  simpl in Hnodup. inversion Hnodup as [|? ? Hnotin Hnodup']; subst.
  destruct (negb _); simpl; [|apply IH; exact Hnodup'].
  constructor; [|apply IH; exact Hnodup'].
  intros Hin. apply Hnotin. apply in_map_iff in Hin.
  destruct Hin as ([k v] & Hk & Hin). simpl in Hk. subst k.
  apply filter_In in Hin. apply in_map_iff. exists (k0, v).
  split; [reflexivity|tauto].
Qed.

Lemma agent_config_infrastructure (factory : AgentFactory Llm) memory :
  dict_get "llm" (build_agent_config factory memory)
  = Some match factory_llm factory with
         | Some llm => ALlm llm
         | None => ANone
         end /\
  dict_get "memory" (build_agent_config factory memory) = Some memory.
Proof.
  unfold build_agent_config. split.
  - rewrite dict_update_other; [reflexivity|].
    intros Hin. apply pass_through_keys in Hin. tauto.
  - rewrite dict_update_other; [reflexivity|].
    intros Hin. apply pass_through_keys in Hin. tauto.
Qed.

(** X15: the factory's model client and the fresh memory cannot be replaced
    through the configuration: [agent_config] always maps [llm] and
    [memory] to the factory's own objects, while every other entry of a
    configuration is passed through and overrides the built-in default of
    the same name. *)
Theorem infrastructure_not_overridable (factory : AgentFactory Llm)
    (memory : Any Llm) (k : string) (v : Any Llm) :
  NoDup (dict_keys (factory_config factory)) ->
  dict_get k (factory_config factory) = Some v ->
  k <> "llm" -> k <> "memory" ->
  dict_get k (build_agent_config factory memory) = Some v /\
  dict_get "llm" (build_agent_config factory memory)
  = Some match factory_llm factory with
         | Some llm => ALlm llm
         | None => ANone
         end /\
  dict_get "memory" (build_agent_config factory memory) = Some memory.
Proof.
  intros Hnodup Hget H1 H2. split; [|apply agent_config_infrastructure].
  unfold build_agent_config. apply dict_update_last.
  - apply pass_through_nodup. exact Hnodup.
  - rewrite pass_through_get by assumption. exact Hget.
Qed.

Lemma create_llm_needs_key (host : Host Llm) config :
  env_set host "LLM_API_KEY" = false ->
  env_set host "GOOGLE_API_KEY" = false ->
  _create_llm host config = Raise missing_api_key.
Proof.
  unfold env_set, _create_llm, opt_str_or. intros H1 H2.
  destruct (getenv host "LLM_API_KEY") as [k1|];
    destruct (getenv host "GOOGLE_API_KEY") as [k2|];
    rewrite ?H1, ?H2; simpl; rewrite ?H1, ?H2; reflexivity.
Qed.

(** X14: without a non-empty [LLM_API_KEY] or [GOOGLE_API_KEY] no factory is
    built: [get_chat_agent] raises the [ValueError] naming [LLM_API_KEY]
    and leaves the singletons as they were, so the next call starts
    over. *)
Theorem factory_needs_api_key (host : Host Llm) config (g : Globals Llm) :
  env_set host "LLM_API_KEY" = false ->
  env_set host "GOOGLE_API_KEY" = false ->
  _agent_factory g = None ->
  get_chat_agent host config g = (Raise missing_api_key, g) /\
  exn_type missing_api_key = "ValueError".
Proof.
  intros H1 H2 Hnone. split; [|reflexivity].
  unfold get_chat_agent, initialize_factory, AgentFactory_new.
  rewrite Hnone, (create_llm_needs_key host config H1 H2). reflexivity.
Qed.

Lemma get_chat_agent_stores (host : Host Llm) config (g g' : Globals Llm) agent :
  get_chat_agent host config g = (Ok agent, g') ->
  _chat_agent g' = Some agent /\ exists factory, _agent_factory g' = Some factory.
Proof.
  unfold get_chat_agent, initialize_factory. intros H.
  destruct (_agent_factory g) as [f|] eqn:Hf.
  - destruct (_chat_agent g) as [a|] eqn:Ha.
    + injection H as <- <-. split; [exact Ha|eauto].
    + destruct (create_chat_agent host f) as [a|e]; [|discriminate].
      injection H as <- <-. simpl. split; [reflexivity|eauto].
  - destruct (AgentFactory_new host config) as [f|e]; [|discriminate].
    simpl in H. destruct (_chat_agent g) as [a|] eqn:Ha.
    + injection H as <- <-. simpl. split; [reflexivity|eauto].
    + destruct (create_chat_agent host f) as [a|e]; [|discriminate].
      injection H as <- <-. simpl. split; [reflexivity|eauto].
Qed.

(** X16: [get_chat_agent] is a singleton accessor: once a call has returned an
    agent, every later call returns that same agent and changes nothing,
    whatever configuration or environment it is given. *)
Theorem get_chat_agent_singleton (host : Host Llm) config (g g' : Globals Llm)
    agent :
  get_chat_agent host config g = (Ok agent, g') ->
  forall host' config', get_chat_agent host' config' g' = (Ok agent, g').
Proof.
  intros H host' config'.
  destruct (get_chat_agent_stores host config g g' agent H) as [Ha [f Hf]].
  unfold get_chat_agent. rewrite Hf, Ha. reflexivity.
Qed.

Lemma create_chat_agent_ready (host : Host Llm) factory agent :
  create_chat_agent host factory = Ok agent ->
  is_initialized (core agent) = true /\
  agent_memory agent = AMemory [] /\
  agent_llm agent = match factory_llm factory with
                    | Some llm => ALlm llm
                    | None => ANone
                    end.
Proof.
  unfold create_chat_agent, GraphChatAgent_new. intros H.
  destruct (negb (_initialized factory)); [discriminate|].
  destruct (ConversationBufferMemory host _); [|discriminate].
  destruct (agent_config_infrastructure factory (AMemory [])) as [Hl Hm].
  rewrite Hl, Hm in H.
  destruct (graph_setup host) as [u|e]; simpl in H; [|discriminate].
  injection H as <-. simpl. repeat split.
Qed.

(** X17: the agent handed out by the first successful [get_chat_agent] has
    completed [initialize], carries the factory's model client and a fresh,
    empty memory, and so [process_message] on it always returns a result. *)
Theorem fresh_agent_is_ready (host : Host Llm) config (g' : Globals Llm)
    agent Sigma (env : Collaborators Sigma) message (m : Machine Sigma) :
  get_chat_agent host config globals_at_import = (Ok agent, g') ->
  is_initialized (core agent) = true /\
  agent_memory agent = AMemory [] /\
  (exists factory llm,
     _agent_factory g' = Some factory /\
     factory_llm factory = Some llm /\
     factory_config factory = config /\
     agent_llm agent = ALlm llm) /\
  exists r m', process_message env (core agent) message m = (Ok r, m').
Proof.
  unfold get_chat_agent, initialize_factory, AgentFactory_new. simpl.
  destruct (_create_llm host config) as [llm|e] eqn:Hllm; [|discriminate].
  simpl.
  destruct (create_chat_agent host _) as [a|e] eqn:Hcreate; [|discriminate].
  intros H. injection H as <- <-.
  destruct (create_chat_agent_ready host _ a Hcreate) as (Hinit & Hmem & Hl).
  split; [exact Hinit|]. split; [exact Hmem|]. split.
  - do 2 eexists. simpl. repeat split. exact Hl.
  - rewrite (process_message_initialized Sigma env (core a) message m Hinit).
    destruct (run_graph env (recursion_limit env) Supervisor _)
      as [[u|e] m1]; do 2 eexists; reflexivity.
Qed.

(** X18: when the factory is built but the agent's graph fails to compile,
    [get_chat_agent] raises that failure and keeps the factory: a later call
    reuses its model client, without looking for an API key again, and only
    retries the creation of the agent. *)
Theorem factory_kept_after_agent_failure (host host' : Host Llm)
    config config' llm e :
  _create_llm host config = Ok llm ->
  (forall limit, ConversationBufferMemory host limit = Ok tt) ->
  graph_setup host = Raise e ->
  (forall limit, ConversationBufferMemory host' limit = Ok tt) ->
  graph_setup host' = Ok tt ->
  let factory := {| factory_config := config; factory_llm := Some llm;
                    _initialized := true |} in
  let kept := {| _agent_factory := Some factory; _chat_agent := None |} in
  get_chat_agent host config globals_at_import = (Raise e, kept) /\
  exists agent,
    get_chat_agent host' config' kept
    = (Ok agent, {| _agent_factory := Some factory;
                    _chat_agent := Some agent |}) /\
    agent_llm agent = ALlm llm /\
    is_initialized (core agent) = true.
Proof.
  intros Hllm Hmem Hsetup Hmem' Hsetup'. cbv zeta.
  assert (Hnew : forall h : Host Llm,
             (forall limit, ConversationBufferMemory h limit = Ok tt) ->
             create_chat_agent h
               {| factory_config := config; factory_llm := Some llm;
                  _initialized := true |}
             = match graph_setup h with
               | Ok _ =>
                   Ok {| agent_config :=
                           build_agent_config
                             {| factory_config := config;
                                factory_llm := Some llm;
                                _initialized := true |} (AMemory []);
                         agent_llm := ALlm llm;
                         agent_memory := AMemory [];
                         core := {| is_initialized := true |} |}
               | Raise err => Raise err
               end).
  { intros h Hm. unfold create_chat_agent, GraphChatAgent_new. simpl negb.
    cbv iota. rewrite Hm.
    destruct (agent_config_infrastructure
                {| factory_config := config; factory_llm := Some llm;
                   _initialized := true |} (AMemory [])) as [Hl Hy].
    rewrite Hl, Hy. simpl. destruct (graph_setup h); reflexivity. }
  split.
  - unfold get_chat_agent, initialize_factory, AgentFactory_new. simpl.
    rewrite Hllm. simpl. rewrite (Hnew host Hmem), Hsetup. reflexivity.
  - eexists. unfold get_chat_agent. simpl.
    rewrite (Hnew host' Hmem'), Hsetup'. simpl.
    split; [reflexivity|]. split; reflexivity.
Qed.

End FactoryFacts.

Lemma infrastructure_not_overridable_witness :
  let factory :=
    {| factory_config := Hosts.intrusive;
       factory_llm := Some [("model", "gemini-pro")];
       _initialized := true |} in
  dict_get "agent_type" (build_agent_config factory (AMemory [])) =
    Some (AStr "custom") /\
  dict_get "llm" (build_agent_config factory (AMemory [])) =
    Some (ALlm [("model", "gemini-pro")]) /\
  dict_get "memory" (build_agent_config factory (AMemory [])) =
    Some (AMemory []).
Proof.
  refine (infrastructure_not_overridable Hosts.Client
            {| factory_config := Hosts.intrusive;
               factory_llm := Some [("model", "gemini-pro")];
               _initialized := true |}
            (AMemory []) "agent_type" (AStr "custom") _ eq_refl _ _).
  - simpl.
    repeat (apply NoDup_cons;
            [simpl; intuition discriminate|]).
    apply NoDup_nil.
  - discriminate.
  - discriminate.
Defined.

Lemma factory_needs_api_key_witness :
  get_chat_agent Hosts.bare Hosts.intrusive globals_at_import
    = (Raise missing_api_key, globals_at_import) /\
  exn_type missing_api_key = "ValueError".
Proof.
  exact (factory_needs_api_key Hosts.Client Hosts.bare Hosts.intrusive
           globals_at_import eq_refl eq_refl eq_refl).
Defined.

Lemma get_chat_agent_singleton_witness :
  exists agent g',
    get_chat_agent Hosts.keyed Hosts.intrusive globals_at_import
      = (Ok agent, g') /\
    get_chat_agent Hosts.bare [] g' = (Ok agent, g').
Proof.
  do 2 eexists. split; [reflexivity|].
  exact (get_chat_agent_singleton Hosts.Client Hosts.keyed Hosts.intrusive
           globals_at_import _ _ eq_refl Hosts.bare []).
Defined.

Lemma fresh_agent_is_ready_witness :
  exists agent g',
    get_chat_agent Hosts.keyed Hosts.intrusive globals_at_import
      = (Ok agent, g') /\
    is_initialized (core agent) = true /\
    agent_memory agent = AMemory [] /\
    (exists factory llm,
       _agent_factory g' = Some factory /\
       factory_llm factory = Some llm /\
       factory_config factory = Hosts.intrusive /\
       agent_llm agent = ALlm llm) /\
    exists r m',
      process_message Scenario.friendly (core agent) "hello"
        (Scenario.start "" (Some [])) = (Ok r, m').
Proof.
  do 2 eexists. split; [reflexivity|].
  exact (fresh_agent_is_ready Hosts.Client Hosts.keyed Hosts.intrusive _ _
           unit Scenario.friendly "hello" (Scenario.start "" (Some []))
           eq_refl).
Defined.

Lemma factory_kept_after_agent_failure_witness :
  let llm :=
    [("model", "gemini-pro"); ("temperature", ""); ("max_tokens", "");
     ("google_api_key", "l-key")] in
  let factory := {| factory_config := Hosts.intrusive;
                    factory_llm := Some llm; _initialized := true |} in
  let kept := {| _agent_factory := Some factory; _chat_agent := None |} in
  get_chat_agent Hosts.broken_graph Hosts.intrusive globals_at_import
    = (Raise (mkExn "ValueError" "node already present"), kept) /\
  exists agent,
    get_chat_agent Hosts.bare [] kept
    = (Ok agent, {| _agent_factory := Some factory;
                    _chat_agent := Some agent |}) /\
    agent_llm agent = ALlm llm /\
    is_initialized (core agent) = true.
Proof.
  exact (factory_kept_after_agent_failure Hosts.Client Hosts.broken_graph
           Hosts.bare Hosts.intrusive [] _ _ eq_refl (fun _ => eq_refl)
           eq_refl (fun _ => eq_refl) eq_refl).
Defined.

(** ** The chat interface and the API connector *)

(** X19: the chat-history entry made from the result of [process_message] holds
    the role and the text and nothing else: a turn never yields charts or a
    table, so neither key is added. *)
Theorem history_entry_of_turn Sigma (env : Collaborators Sigma)
    (agent : GraphChatAgent) (message : string) (m m' : Machine Sigma)
    (r : AgentResponse) (messages : list (dict UIValue)) :
  process_message env agent message m = (Ok r, m') ->
  add_agent_response_to_history r messages
  = messages ++ [[("role", UStr "assistant"); ("content", UStr (text r))]].
Proof.
  intros H. destruct (is_initialized agent) eqn:Hinit.
  - rewrite (process_message_initialized Sigma env agent message m Hinit) in H.
    destruct (run_graph env (recursion_limit env) Supervisor _)
      as [[u|e] m1]; injection H as <- _; reflexivity.
  - unfold process_message in H. rewrite Hinit in H. discriminate H.
Qed.

Lemma history_entry_of_turn_witness :
  add_agent_response_to_history
    {| text := "Hello! How can I help?"; visualizations := Some [];
       data := None;
       resp_metadata :=
         [("intent", MStr "conversation"); ("confidence", MFloat (95 # 100));
          ("tools_used", MList []); ("iterations", MInt 1);
          ("was_rewritten", MBool false)] |}
    [[("role", UStr "user"); ("content", UStr "hello")]]
  = [[("role", UStr "user"); ("content", UStr "hello")]]
      ++ [[("role", UStr "assistant");
           ("content", UStr "Hello! How can I help?")]].
Proof.
  refine (history_entry_of_turn unit Scenario.friendly Scenario.ready "hello"
            (Scenario.start "" (Some []))
            (snd (process_message Scenario.friendly Scenario.ready "hello"
                    (Scenario.start "" (Some []))))
            {| text := "Hello! How can I help?"; visualizations := Some [];
               data := None;
               resp_metadata :=
                 [("intent", MStr "conversation");
                  ("confidence", MFloat (95 # 100));
                  ("tools_used", MList []); ("iterations", MInt 1);
                  ("was_rewritten", MBool false)] |}
            [[("role", UStr "user"); ("content", UStr "hello")]] _).
  vm_compute. reflexivity.
Defined.

(** X20: sources registered with the connector are found again under their
    name, a later registration under the same name replaces the earlier
    one and other names are unaffected; fetching goes to the registered
    source, and fetching from an unknown name, as from the empty connector
    of a new [DataAccessManager], raises a [ValueError] naming it. *)
Theorem connector_round_trip (Source Request : Type)
    (source_fetch_data : Source -> Request -> Outcome DataFrame)
    (c : APIConnector Source) (source : Source) (name other : string)
    (request : Request) :
  get_source other (add_source source name c)
  = (if String.eqb other name then Some source else get_source other c) /\
  fetch_data source_fetch_data (add_source source name c) name request
  = source_fetch_data source request /\
  fetch_data source_fetch_data DataAccessManager_components name request
  = Raise (mkExn "ValueError" ("Data source '" +++ name +++ "' not found")).
Proof.
  unfold get_source, fetch_data, add_source, get_source. simpl.
  split; [|split].
  - destruct (String.eqb other name) eqn:E.
    + apply String.eqb_eq in E. subst. apply dict_get_set_same.
    + apply String.eqb_neq in E. apply dict_get_set_other. exact E.
  - rewrite dict_get_set_same. reflexivity.
  - reflexivity.
Qed.

(** X21: the status report follows the singletons: after the first
    successful [get_chat_agent] it shows the factory and the agent as
    present, with the model settings of the factory's configuration; after
    [reset_agents] it shows neither and no model information, and the next
    [get_chat_agent] builds a factory again, so it needs the API key
    again. *)
Theorem status_tracks_singletons (Llm : Type) (host bare_host : Host Llm)
    config (g' : Globals Llm) agent :
  get_chat_agent host config globals_at_import = (Ok agent, g') ->
  env_set bare_host "LLM_API_KEY" = false ->
  env_set bare_host "GOOGLE_API_KEY" = false ->
  get_factory_status g' =
    {| factory_initialized := true;
       chat_agent_created := true;
       llm_info :=
         Some [("status", AStr "initialized");
               ("model", dict_get_default "model_name" (AStr "unknown") config);
               ("temperature", dict_get_default "temperature" (AFloat 0) config);
               ("max_tokens", dict_get_default "max_tokens" (AInt 2000) config)]
    |} /\
  get_factory_status (reset_agents g') =
    {| factory_initialized := false; chat_agent_created := false;
       llm_info := None |} /\
  get_chat_agent bare_host config (reset_agents g')
  = (Raise missing_api_key, reset_agents g').
Proof.
  intros Hget H1 H2. split; [|split].
  - revert Hget.
    unfold get_chat_agent, initialize_factory, AgentFactory_new. simpl.
    destruct (_create_llm host config) as [llm|e]; [|discriminate]. simpl.
    destruct (create_chat_agent host _) as [a|e]; [|discriminate].
    intros H. injection H as <- <-. reflexivity.
  - reflexivity.
  - unfold get_chat_agent, initialize_factory, AgentFactory_new. simpl.
    rewrite (create_llm_needs_key Llm bare_host config H1 H2). reflexivity.
Qed.

Lemma status_tracks_singletons_witness :
  let g' := snd (get_chat_agent Hosts.keyed Hosts.intrusive globals_at_import) in
  get_factory_status g' =
    {| factory_initialized := true;
       chat_agent_created := true;
       llm_info :=
         Some [("status", AStr "initialized");
               ("model", AStr "gemini-pro");
               ("temperature", AFloat 0);
               ("max_tokens", AInt 2000)] |} /\
  get_factory_status (reset_agents g') =
    {| factory_initialized := false; chat_agent_created := false;
       llm_info := None |} /\
  get_chat_agent Hosts.bare Hosts.intrusive (reset_agents g')
  = (Raise missing_api_key, reset_agents g').
Proof.
  exact (status_tracks_singletons Hosts.Client Hosts.keyed Hosts.bare
           Hosts.intrusive
           (snd (get_chat_agent Hosts.keyed Hosts.intrusive globals_at_import))
           (match fst (get_chat_agent Hosts.keyed Hosts.intrusive
                         globals_at_import) with
            | Ok a => a
            | Raise _ =>
                {| agent_config := []; agent_llm := ANone;
                   agent_memory := ANone; core := GraphChatAgent_init |}
            end)
           eq_refl eq_refl eq_refl).
Defined.
